(** * pitch-shifter: the real-time bridge of [EntryPoint.cpp]

    A shallow embedding of the two functions of [EntryPoint.cpp]:
    [audioCallback], the per-buffer callback that converts, feeds, drains,
    pads and converts back, and [main], the start-up code that negotiates
    the stream with PortAudio and configures the SoundTouch engine.

    C++ [float] is IEEE-754 binary32 and [double] is binary64; both are
    modelled with the executable specification of the Standard Library
    ([SpecFloat], precision 24 / 53).  Machine integers are [Z] with the
    wrap-around of each conversion written out. *)

From Stdlib Require Import String.
From stdpp Require Import base list.
From Stdlib Require Import ZArith Bool Lia.
From Stdlib Require Import Floats.SpecFloat.
Import ListNotations.
Local Open Scope Z_scope.

(* ================================================================= *)
(** * Machine numbers *)

(** ** binary32: the C++ [float] *)
Module F32.
Definition prec : Z := 24.
Definition emax : Z := 128.

Definition valid (x : spec_float) : bool := valid_binary prec emax x.

(** Conversion of an integer, as in [(float)i]; exact below [2^24]. *)
Definition of_int (z : Z) : spec_float := binary_normalize prec emax z 0 false.

Definition mul : spec_float -> spec_float -> spec_float := SFmul prec emax.
Definition div : spec_float -> spec_float -> spec_float := SFdiv prec emax.
Definition ltb : spec_float -> spec_float -> bool := SFltb.
Definition leb : spec_float -> spec_float -> bool := SFleb.

(** The literal [0.0f], also the value of a value-initialised [float]. *)
Definition zero : spec_float := S754_zero false.
(** The literals [1.0f] and [-1.0f]. *)
Definition one : spec_float := S754_finite false 8388608 (-23).
Definition minus_one : spec_float := S754_finite true 8388608 (-23).
(** The literals [32768.0f] and [32767.0f]. *)
Definition c32768 : spec_float := S754_finite false 8388608 (-8).
Definition c32767 : spec_float := S754_finite false 16776704 (-9).
End F32.

(** ** binary64: the C++ [double] *)
Module F64.
Definition prec : Z := 53.
Definition emax : Z := 1024.

Definition of_int (z : Z) : spec_float := binary_normalize prec emax z 0 false.
Definition ltb : spec_float -> spec_float -> bool := SFltb.
Definition leb : spec_float -> spec_float -> bool := SFleb.
End F64.

Definition is_nan (x : spec_float) : bool :=
  match x with S754_nan => true | _ => false end.

(** ** Floating point to integer conversions

    A C++ conversion from a floating type to an integer type discards the
    fractional part (truncation toward zero).  [float_trunc] is that integer;
    it does not exist for a NaN or an infinity. *)
Definition float_trunc (x : spec_float) : option Z :=
  match x with
  | S754_zero _ => Some 0
  | S754_finite s m e =>
      let a := match e with
               | Zneg p => Zpos m / 2 ^ Zpos p
               | _ => Zpos m * 2 ^ e
               end in
      Some (if s then - a else a)
  | S754_infinity _ | S754_nan => None
  end.

(** The conversion is defined only when the truncated value is representable
    in the destination type; [None] stands for the undefined remainder. *)
Definition cast_range (lo hi : Z) (x : spec_float) : option Z :=
  match float_trunc x with
  | Some t => if (lo <=? t) && (t <=? hi) then Some t else None
  | None => None
  end.

(** [(int16_t)x] *)
Definition cast_int16 : spec_float -> option Z := cast_range (-32768) 32767.
(** [(unsigned int)x] *)
Definition cast_uint : spec_float -> option Z := cast_range 0 4294967295.

(** ** Integer conversions *)

(** [unsigned long] is 64 bits wide, [int] and [unsigned] 32 bits.
    [wrap_ulong] is the conversion to [unsigned long], [wrap_uint] the
    conversion to [unsigned int], [wrap_int] the conversion to [int], and
    [in_int] tells whether an [int] operation stays in range. *)
Definition wrap_ulong (z : Z) : Z := z mod 2 ^ 64.
Definition wrap_uint (z : Z) : Z := z mod 2 ^ 32.
Definition wrap_int (z : Z) : Z := (z + 2 ^ 31) mod 2 ^ 32 - 2 ^ 31.
Definition in_int (z : Z) : bool := (- 2 ^ 31 <=? z) && (z <=? 2 ^ 31 - 1).

(* ================================================================= *)
(** * Format converter (the two sample conversions of [audioCallback]) *)

(** Fixed16 to normalized, line 46: [in[i] / 32768.0f].  The [int16_t] is
    promoted to [int] and converted to [float] before the division. *)
Definition toNormalized (s : Z) : spec_float :=
  F32.div (F32.of_int s) F32.c32768.

(** The two [if]s of lines 76-79. *)
Definition clamp_unit (sample : spec_float) : spec_float :=
  let sample := if F32.ltb F32.one sample then F32.one else sample in
  let sample := if F32.ltb sample F32.minus_one then F32.minus_one else sample in
  sample.

(** Normalized to Fixed16, lines 75-80. *)
Definition toFixed16 (sample : spec_float) : option Z :=
  cast_int16 (F32.mul (clamp_unit sample) F32.c32767).

(** [z_range n lo] lists the [n] integers from [lo] upwards. *)
Fixpoint z_range (n : nat) (lo : Z) : list Z :=
  match n with
  | O => []
  | S k => lo :: z_range k (lo + 1)
  end.

(** All [int16_t] values, in increasing order. *)
Definition int16_values : list Z := z_range (Z.to_nat 65536) (-32768).

Definition roundtrip_within_one (s : Z) : bool :=
  match toFixed16 (toNormalized s) with
  | Some r => Z.abs (r - s) <=? 1
  | None => false
  end.

(* ================================================================= *)
(** * External interfaces *)

(** ** PortAudio ([portaudio.h])

    [PaSampleFormat] is an [unsigned long], [PaError] and the callback
    result are [int]s; the constants have the values of the PortAudio
    header.  The callback and [main] only compare them. *)

Definition PaSampleFormat := Z.
Definition paFloat32 : PaSampleFormat := 1.
Definition paInt16 : PaSampleFormat := 8.

Definition PaError := Z.
Definition paNoError : PaError := 0.
Definition paSampleFormatNotSupported : PaError := -9994.

(** Callback results: [paContinue], [paComplete], [paAbort]. *)
Definition paContinue : Z := 0.
Definition paComplete : Z := 1.
Definition paAbort : Z := 2.

Definition paNoFlag : Z := 0.

(** [#define FRAMES_PER_BUFFER 512] *)
Definition FRAMES_PER_BUFFER : Z := 512.

(** ** SoundTouch ([SoundTouchDLL.h])

    The time-stretch engine is a black box.  A [HANDLE] stands for the
    engine instance it designates, and every call passes the instance on.
    [soundtouch_receiveSamples h buf maxSamples] yields the instance, the
    contents of the buffer behind [outBuffer] after the call, and the
    number of sample frames the engine reports, as the [int] the caller
    stores it in.  The counts [numSamples] and [maxSamples] are
    [unsigned int]. *)
Class SoundTouch (HANDLE : Type) := {
  soundtouch_createInstance : HANDLE;
  soundtouch_setSampleRate : HANDLE -> Z -> HANDLE;
  soundtouch_setChannels : HANDLE -> Z -> HANDLE;
  soundtouch_setPitchSemiTones : HANDLE -> spec_float -> HANDLE;
  soundtouch_putSamples : HANDLE -> list spec_float -> Z -> HANDLE;
  soundtouch_receiveSamples :
    HANDLE -> list spec_float -> Z -> HANDLE * list spec_float * Z
}.

(* ================================================================= *)
(** * Buffers *)

(** [v[i] = f(i)] for [i = lo, lo+1, ...], [count] times, on a
    [std::vector].  A store past the end is undefined in C++: [None]. *)
Fixpoint store_range {A : Type} (f : nat -> A) (lo count : nat) (v : list A)
  : option (list A) :=
  match count with
  | O => Some v
  | S k =>
      if (lo <? length v)%nat
      then store_range f (S lo) k (<[lo := f lo]> v)
      else None
  end.

(** [std::vector<float> v(n)], lines 27 and 28: [n] value-initialised
    samples.  The constructor throws [std::length_error] when [n] exceeds
    [max_size()], which is [PTRDIFF_MAX / sizeof(float)] with a 64-bit
    [ptrdiff_t]; the exception leaves the callback, which then has no
    result ([None]).  Below that bound the allocation is taken to
    succeed. *)
Definition vector_max_size : Z := 2 ^ 61 - 1.

Definition vector_alloc (n : Z) : option (list spec_float) :=
  if vector_max_size <? n then None
  else Some (replicate (Z.to_nat n) F32.zero).

(** The memory behind the driver's [const void *input], seen through the
    two pointer types the callback casts it to.  [as_int16] yields
    [int16_t] values. *)
Record RawInput := {
  as_float : nat -> spec_float;
  as_int16 : nat -> Z
}.

(** What the callback stores behind [void *output], a buffer the driver
    provides: [framesPerBuffer * channels] samples of the stream's format,
    or nothing when the format is neither of the two. *)
Inductive Output :=
| OutFloat32 (samples : list spec_float)
| OutInt16 (samples : list Z)
| OutUntouched.

(** [map] for a conversion that can be undefined. *)
Fixpoint map_defined {A B : Type} (f : A -> option B) (l : list A)
  : option (list B) :=
  match l with
  | [] => Some []
  | x :: l' =>
      match f x, map_defined f l' with
      | Some y, Some ys => Some (y :: ys)
      | _, _ => None
      end
  end.

(* ================================================================= *)
(** * The per-buffer callback *)

Record CallbackData (HANDLE : Type) := {
  hST : HANDLE;
  format : PaSampleFormat;
  channels : Z
}.
Arguments hST {HANDLE}.
Arguments format {HANDLE}.
Arguments channels {HANDLE}.

(** Result of one invocation: the value returned to the driver, the engine
    afterwards, the local buffer [outFloat] after padding, and the samples
    stored in the driver's output buffer. *)
Record CallbackResult (HANDLE : Type) := {
  cb_return : Z;
  cb_engine : HANDLE;
  cb_outFloat : list spec_float;
  cb_output : Output
}.
Arguments cb_return {HANDLE}.
Arguments cb_engine {HANDLE}.
Arguments cb_outFloat {HANDLE}.
Arguments cb_output {HANDLE}.

(** Lines 27 and 30-49.  [inFloat] is value-initialised (all [0.0f]); it is
    overwritten only when the input pointer is not null.  The counter of the
    Int16 loop is a 32-bit [unsigned]: it cannot reach a bound of [2^32] or
    more, and the loop then never ends ([None]). *)
Definition convert_input (fmt : PaSampleFormat) (input : option RawInput) (n : Z)
  : option (list spec_float) :=
  match vector_alloc n with
  | None => None
  | Some inFloat =>
      if fmt =? paFloat32 then
        match input with
        | Some p => store_range (as_float p) 0 (Z.to_nat n) inFloat
        | None => Some inFloat
        end
      else if fmt =? paInt16 then
        match input with
        | Some p =>
            if n <? 2 ^ 32
            then store_range (fun i => toNormalized (as_int16 p i)) 0 (Z.to_nat n) inFloat
            else None
        | None => Some inFloat
        end
      else Some inFloat
  end.

(** Lines 58-62.  [received * channels] is an [int] product (overflow is
    undefined), the bound is [(int)(framesPerBuffer * channels)], and a
    store at a negative index is undefined. *)
Definition pad_silence (outFloat : list spec_float) (received chans n : Z)
  : option (list spec_float) :=
  let lo := received * chans in
  let hi := wrap_int n in
  if negb (in_int lo) then None
  else if hi <=? lo then Some outFloat
  else if lo <? 0 then None
  else store_range (fun _ => F32.zero) (Z.to_nat lo) (Z.to_nat (hi - lo)) outFloat.

(** Lines 64-82. *)
Definition convert_output (fmt : PaSampleFormat) (outFloat : list spec_float) (n : Z)
  : option Output :=
  if fmt =? paFloat32 then Some (OutFloat32 outFloat)
  else if fmt =? paInt16 then
    if n <? 2 ^ 32
    then option_map OutInt16 (map_defined toFixed16 (take (Z.to_nat n) outFloat))
    else None
  else Some OutUntouched.

Definition vec_empty {A : Type} (v : list A) : bool :=
  match v with [] => true | _ => false end.

Section Callback.
Context {HANDLE : Type} `{SoundTouch HANDLE}.

(** Lines 51-53: the buffer is handed to the engine unless it is empty. *)
Definition feed (h : HANDLE) (inFloat : list spec_float) (framesPerBuffer : Z)
  : HANDLE :=
  if negb (vec_empty inFloat)
  then soundtouch_putSamples h inFloat framesPerBuffer
  else h.

(** Lines 22-56: the two local buffers of [framesPerBuffer * channels]
    samples (an [unsigned long] product), the input conversion, the feed
    and the drain.  The engine's two functions take an [unsigned int]
    count, to which the [unsigned long framesPerBuffer] is converted.
    Yields the engine, [outFloat] as the engine left it, and [received]. *)
Definition feed_and_drain (data : CallbackData HANDLE) (input : option RawInput)
    (framesPerBuffer : Z) : option (HANDLE * list spec_float * Z) :=
  let n := wrap_ulong (framesPerBuffer * channels data) in
  let numSamples := wrap_uint framesPerBuffer in
  match convert_input (format data) input n with
  | None => None
  | Some inFloat =>
      match vector_alloc n with
      | None => None
      | Some outFloat =>
          Some (soundtouch_receiveSamples
                  (feed (hST data) inFloat numSamples) outFloat numSamples)
      end
  end.

(** [audioCallback], lines 15-85.  [None] when the invocation runs into
    behaviour the C++ leaves undefined or does not return; the engine
    writes through a pointer, so it cannot change the size of [outFloat]. *)
Definition audioCallback (data : CallbackData HANDLE) (input : option RawInput)
    (framesPerBuffer : Z) : option (CallbackResult HANDLE) :=
  let n := wrap_ulong (framesPerBuffer * channels data) in
  match feed_and_drain data input framesPerBuffer with
  | None => None
  | Some (h, outFloat, received) =>
      if negb (Z.of_nat (length outFloat) =? n) then None
      else
        match pad_silence outFloat received (channels data) n with
        | None => None
        | Some outFloat =>
            match convert_output (format data) outFloat n with
            | None => None
            | Some out =>
                Some {| cb_return := paContinue;
                        cb_engine := h;
                        cb_outFloat := outFloat;
                        cb_output := out |}
            end
        end
  end.
End Callback.

(* ================================================================= *)
(** * Start-up: device selection and stream negotiation ([main]) *)

(** The fields of [PaDeviceInfo] that [main] reads after the selection. *)
Record PaDeviceInfo := {
  maxInputChannels : Z;
  maxOutputChannels : Z;
  defaultLowInputLatency : spec_float;
  defaultLowOutputLatency : spec_float;
  defaultSampleRate : spec_float
}.

(** [hostApiSpecificStreamInfo] is always [nullptr] and is left out. *)
Record PaStreamParameters := {
  device : Z;
  channelCount : Z;
  sampleFormat : PaSampleFormat;
  suggestedLatency : spec_float
}.

(** The arguments of one [Pa_OpenStream] call; [open_userData] is the
    [CallbackData] behind the pointer at the time of the call. *)
Record OpenRequest (HANDLE : Type) := {
  open_input : PaStreamParameters;
  open_output : PaStreamParameters;
  open_sampleRate : spec_float;
  open_framesPerBuffer : Z;
  open_flags : Z;
  open_userData : CallbackData HANDLE
}.
Arguments open_input {HANDLE}.
Arguments open_output {HANDLE}.
Arguments open_sampleRate {HANDLE}.
Arguments open_framesPerBuffer {HANDLE}.
Arguments open_flags {HANDLE}.
Arguments open_userData {HANDLE}.

(** What the process does to the outside, in order: the calls into the two
    libraries and the console traffic.  [Cout] and [Cerr] carry the literal
    text of a message without its line breaks, [Cerr_ErrorText err] stands
    for the text of [Pa_GetErrorText(err)], [Cout_device id] for the line
    that lists device [id], and [Cin] for one read from the console. *)
Inductive Event (HANDLE : Type) :=
| Call_Pa_Initialize
| Call_Pa_GetDeviceCount
| Call_Pa_Terminate
| Call_createInstance
| Call_setSampleRate (rate : Z)
| Call_setChannels (numChannels : Z)
| Call_setPitchSemiTones (pitch : spec_float)
| Call_destroyInstance
| Call_Pa_OpenStream (req : OpenRequest HANDLE)
| Call_Pa_StartStream
| Call_Pa_StopStream
| Call_Pa_CloseStream
| Cout (msg : string)
| Cout_device (id : Z)
| Cin
| Cerr (msg : string)
| Cerr_ErrorText (err : PaError).
Arguments Call_Pa_Initialize {HANDLE}.
Arguments Call_Pa_GetDeviceCount {HANDLE}.
Arguments Call_Pa_Terminate {HANDLE}.
Arguments Call_createInstance {HANDLE}.
Arguments Call_setSampleRate {HANDLE}.
Arguments Call_setChannels {HANDLE}.
Arguments Call_setPitchSemiTones {HANDLE}.
Arguments Call_destroyInstance {HANDLE}.
Arguments Call_Pa_OpenStream {HANDLE}.
Arguments Call_Pa_StartStream {HANDLE}.
Arguments Call_Pa_StopStream {HANDLE}.
Arguments Call_Pa_CloseStream {HANDLE}.
Arguments Cout {HANDLE}.
Arguments Cout_device {HANDLE}.
Arguments Cin {HANDLE}.
Arguments Cerr {HANDLE}.
Arguments Cerr_ErrorText {HANDLE}.

(** What the outside answers: the results of the PortAudio calls, the two
    numbers typed by the user, and the driver's answer to the first and to
    the second [Pa_OpenStream] call.  [Pa_GetDeviceInfo] is only asked about
    ids below the device count, where PortAudio returns a record.  A
    [Host] stands for a run in which both extractions from [std::cin]
    succeed: the two ids are the numbers read.  A run in which an
    extraction fails, and the variable is read without a value, has no
    [Host]. *)
Record Host (HANDLE : Type) := {
  host_Pa_Initialize : PaError;
  host_Pa_GetDeviceCount : Z;
  host_Pa_GetDeviceInfo : Z -> PaDeviceInfo;
  host_cin_inputDevice : Z;
  host_cin_outputDevice : Z;
  host_Pa_OpenStream : nat -> OpenRequest HANDLE -> PaError
}.
Arguments host_Pa_Initialize {HANDLE}.
Arguments host_Pa_GetDeviceCount {HANDLE}.
Arguments host_Pa_GetDeviceInfo {HANDLE}.
Arguments host_cin_inputDevice {HANDLE}.
Arguments host_cin_outputDevice {HANDLE}.
Arguments host_Pa_OpenStream {HANDLE}.

(** A finished run: the exit status, the trace, and the [CallbackData] the
    started stream reads on every callback (none if no stream was started). *)
Record MainResult (HANDLE : Type) := {
  exit_code : Z;
  trace : list (Event HANDLE);
  stream_data : option (CallbackData HANDLE)
}.
Arguments exit_code {HANDLE}.
Arguments trace {HANDLE}.
Arguments stream_data {HANDLE}.

(** [std::min(a, b)] is [(b < a) ? b : a]. *)
Definition std_min (a b : spec_float) : spec_float :=
  if F64.ltb b a then b else a.

(** The literal [-4.0f]. *)
Definition minus_four : spec_float := S754_finite true 8388608 (-21).

(** Lines 140-141. *)
Definition pick_channels (maxChannels : Z) : Z :=
  if maxChannels >=? 2 then 2 else if maxChannels >? 0 then 1 else 0.

Definition open_requests {HANDLE : Type} (t : list (Event HANDLE))
  : list (OpenRequest HANDLE) :=
  omap (fun ev => match ev with Call_Pa_OpenStream req => Some req | _ => None end) t.

Section Main.
Context {HANDLE : Type} `{SoundTouch HANDLE}.

Definition exit_with (code : Z) (evs : list (Event HANDLE))
  : option (MainResult HANDLE) :=
  Some {| exit_code := code; trace := evs; stream_data := None |}.

(** [emit evs rest]: the events [evs] happen, then the run goes on as [rest]. *)
Definition emit (evs : list (Event HANDLE)) (rest : option (MainResult HANDLE))
  : option (MainResult HANDLE) :=
  match rest with
  | Some r => Some {| exit_code := exit_code r;
                      trace := evs ++ trace r;
                      stream_data := stream_data r |}
  | None => None
  end.

Definition stream_request (inputParams outputParams : PaSampleFormat -> PaStreamParameters)
    (sampleRate : spec_float) (cbData : CallbackData HANDLE) : OpenRequest HANDLE :=
  {| open_input := inputParams (format cbData);
     open_output := outputParams (format cbData);
     open_sampleRate := sampleRate;
     open_framesPerBuffer := FRAMES_PER_BUFFER;
     open_flags := paNoFlag;
     open_userData := cbData |}.

(** Lines 169-226.  [inputParams] and [outputParams] still lack their
    [sampleFormat], which is assigned before each attempt. *)
Definition open_stream (host : Host HANDLE) (hST : HANDLE)
    (inputParams outputParams : PaSampleFormat -> PaStreamParameters)
    (sampleRate : spec_float) (inChannels : Z) : option (MainResult HANDLE) :=
  let fmt := paFloat32 in
  let cbData := {| hST := hST; format := fmt; channels := inChannels |} in
  let req := stream_request inputParams outputParams sampleRate cbData in
  let err := host_Pa_OpenStream host 0%nat req in
  let '(err, cbData, evs) :=
    if err =? paSampleFormatNotSupported then
      let fmt := paInt16 in
      let cbData := {| hST := hST; format := fmt; channels := inChannels |} in
      let req2 := stream_request inputParams outputParams sampleRate cbData in
      (host_Pa_OpenStream host 1%nat req2, cbData,
       [Call_Pa_OpenStream req;
        Cerr "Float32 not supported, retrying with Int16...";
        Call_Pa_OpenStream req2])
    else (err, cbData, [Call_Pa_OpenStream req]) in
  emit evs
    (if negb (err =? paNoError) then
       exit_with (-1)
         [Cerr "Failed to open stream: "; Cerr_ErrorText err;
          Call_destroyInstance; Call_Pa_Terminate]
     else
       Some {| exit_code := 0;
               trace := [Cout "Stream opened successfully. Starting...";
                         Call_Pa_StartStream;
                         Cout "Press ENTER to stop."; Cin;
                         Call_Pa_StopStream; Call_Pa_CloseStream;
                         Call_destroyInstance; Call_Pa_Terminate];
               stream_data := Some cbData |}).

(** Lines 133-167, then [open_stream].  [(unsigned int)sampleRate] is
    undefined for a rate that has no 32-bit unsigned truncation: [None]. *)
Definition negotiate (host : Host HANDLE) (inputDevice outputDevice : Z)
  : option (MainResult HANDLE) :=
  let inInfo := host_Pa_GetDeviceInfo host inputDevice in
  let outInfo := host_Pa_GetDeviceInfo host outputDevice in
  let sampleRate := std_min (defaultSampleRate inInfo) (defaultSampleRate outInfo) in
  let inChannels := pick_channels (maxInputChannels inInfo) in
  let outChannels := pick_channels (maxOutputChannels outInfo) in
  if (inChannels =? 0) || (outChannels =? 0) then
    exit_with (-1)
      [Cerr "Selected devices do not support required I/O."; Call_Pa_Terminate]
  else
    let inputParams fmt :=
      {| device := inputDevice; channelCount := inChannels;
         sampleFormat := fmt;
         suggestedLatency := defaultLowInputLatency inInfo |} in
    let outputParams fmt :=
      {| device := outputDevice; channelCount := outChannels;
         sampleFormat := fmt;
         suggestedLatency := defaultLowOutputLatency outInfo |} in
    match cast_uint sampleRate with
    | None => None
    | Some rate =>
        let hST := soundtouch_createInstance in
        let hST := soundtouch_setSampleRate hST rate in
        let hST := soundtouch_setChannels hST inChannels in
        let hST := soundtouch_setPitchSemiTones hST minus_four in
        emit [Call_createInstance; Call_setSampleRate rate;
              Call_setChannels inChannels; Call_setPitchSemiTones minus_four]
          (open_stream host hST inputParams outputParams sampleRate inChannels)
    end.

(** [main], lines 87-226. *)
Definition main (host : Host HANDLE) : option (MainResult HANDLE) :=
  let err := host_Pa_Initialize host in
  emit [Call_Pa_Initialize]
    (if negb (err =? paNoError) then
       exit_with (-1) [Cerr "PortAudio init failed: "; Cerr_ErrorText err]
     else
       let numDevices := host_Pa_GetDeviceCount host in
       emit [Call_Pa_GetDeviceCount]
         (if numDevices <? 0 then
            exit_with (-1)
              [Cerr "ERROR: "; Cerr_ErrorText numDevices; Call_Pa_Terminate]
          else
            let inputDevice := host_cin_inputDevice host in
            let outputDevice := host_cin_outputDevice host in
            emit (map Cout_device (z_range (Z.to_nat numDevices) 0) ++
                  [Cout "Select input device ID: "; Cin;
                   Cout "Select output device ID: "; Cin])
              (if (inputDevice <? 0) || (inputDevice >=? numDevices) ||
                  (outputDevice <? 0) || (outputDevice >=? numDevices)
               then exit_with (-1) [Cerr "Invalid device ID."; Call_Pa_Terminate]
               else negotiate host inputDevice outputDevice))).
End Main.

(* ================================================================= *)
(** * A loop-back engine

    A stand-in for the SoundTouch library, used to run the model on concrete
    buffers: it keeps the block it was fed last and hands back its leading
    frames, as many as fit the request, but for one frame of look-ahead.  It
    copies all it holds into the caller's buffer and reports the frames that
    count. *)

Record Loopback := {
  lb_rate : Z;
  lb_channels : Z;
  lb_pitch : spec_float;
  lb_held : list spec_float
}.

Definition loopback_receive (h : Loopback) (buf : list spec_float) (maxSamples : Z)
  : Loopback * list spec_float * Z :=
  let avail := if lb_channels h >? 0
               then Z.of_nat (length (lb_held h)) / lb_channels h - 1
               else 0 in
  let frames := Z.max 0 (Z.min maxSamples avail) in
  let k := Z.to_nat (frames * lb_channels h) in
  let out := lb_held h in
  ({| lb_rate := lb_rate h; lb_channels := lb_channels h; lb_pitch := lb_pitch h;
      lb_held := drop k (lb_held h) |},
   take (length buf) (out ++ drop (length out) buf),
   frames).

#[export] Instance loopback_engine : SoundTouch Loopback := {
  soundtouch_createInstance :=
    {| lb_rate := 44100; lb_channels := 2; lb_pitch := F32.zero; lb_held := [] |};
  soundtouch_setSampleRate h rate :=
    {| lb_rate := rate; lb_channels := lb_channels h; lb_pitch := lb_pitch h;
       lb_held := lb_held h |};
  soundtouch_setChannels h c :=
    {| lb_rate := lb_rate h; lb_channels := c; lb_pitch := lb_pitch h;
       lb_held := lb_held h |};
  soundtouch_setPitchSemiTones h p :=
    {| lb_rate := lb_rate h; lb_channels := lb_channels h; lb_pitch := p;
       lb_held := lb_held h |};
  soundtouch_putSamples h samples numSamples :=
    {| lb_rate := lb_rate h; lb_channels := lb_channels h; lb_pitch := lb_pitch h;
       lb_held := take (Z.to_nat (numSamples * lb_channels h)) samples |};
  soundtouch_receiveSamples := loopback_receive
}.

(** A sample the Fixed16 conversion is defined on: a binary32 number. *)
Definition sample_ok (x : spec_float) : bool := F32.valid x && negb (is_nan x).

(** The literals [1.5f], [-1.5f] and [0.5f]. *)
Definition f_1_5 : spec_float := S754_finite false 12582912 (-23).
Definition f_minus_1_5 : spec_float := S754_finite true 12582912 (-23).
Definition f_0_5 : spec_float := S754_finite false 8388608 (-24).

(** An input buffer that holds zeros, in either view. *)
Definition zero_input : RawInput :=
  {| as_float := fun _ => F32.zero; as_int16 := fun _ => 0 |}.

(* ================================================================= *)
(** * Statements and fixtures *)

(** [silence_padded buf received chans fpb out]: the buffer [out] of
    [fpb * chans] samples keeps the first [received * chans] samples of
    [buf] and holds [0.0f] in all the others. *)
Definition silence_padded (buf : list spec_float) (received chans fpb : Z)
    (out : list spec_float) : Prop :=
  forall j : nat,
    out !! j = if Z.of_nat j <? received * chans then buf !! j
               else if Z.of_nat j <? fpb * chans then Some F32.zero
               else None.

Definition loopback0 : Loopback :=
  {| lb_rate := 44100; lb_channels := 2; lb_pitch := minus_four; lb_held := [] |}.

Definition stereo_float32 : CallbackData Loopback :=
  {| hST := loopback0; format := paFloat32; channels := 2 |}.

Definition stereo_int16 : CallbackData Loopback :=
  {| hST := loopback0; format := paInt16; channels := 2 |}.

(** Two stereo frames: [0.5f, 1.5f, -1.5f, 0.5f] as floats and
    [-2000, -1000, 0, 1000] as 16-bit samples. *)
Definition sample_input : RawInput :=
  {| as_float := fun i => if (i =? 1)%nat then f_1_5
                          else if (i =? 2)%nat then f_minus_1_5 else f_0_5;
     as_int16 := fun i => Z.of_nat i * 1000 - 2000 |}.

(** The events of lines 89-123 in a run that gets as far as the selection. *)
Definition selection_events {HANDLE : Type} (host : Host HANDLE)
  : list (Event HANDLE) :=
  [Call_Pa_Initialize; Call_Pa_GetDeviceCount] ++
  map Cout_device (z_range (Z.to_nat (host_Pa_GetDeviceCount host)) 0) ++
  [Cout "Select input device ID: "; Cin; Cout "Select output device ID: "; Cin].

(** The run gets past initialisation, enumeration and selection: PortAudio
    starts, reports its devices, and the two ids typed in are in range. *)
Definition devices_selected {HANDLE : Type} (host : Host HANDLE) : Prop :=
  host_Pa_Initialize host = paNoError /\
  0 <= host_cin_inputDevice host < host_Pa_GetDeviceCount host /\
  0 <= host_cin_outputDevice host < host_Pa_GetDeviceCount host.

Definition selected_input {HANDLE : Type} (host : Host HANDLE) : PaDeviceInfo :=
  host_Pa_GetDeviceInfo host (host_cin_inputDevice host).

Definition selected_output {HANDLE : Type} (host : Host HANDLE) : PaDeviceInfo :=
  host_Pa_GetDeviceInfo host (host_cin_outputDevice host).

(** The engine as [main] has configured it when it opens the stream. *)
Definition configured_engine {HANDLE : Type} `{SoundTouch HANDLE}
    (rate inChannels : Z) : HANDLE :=
  soundtouch_setPitchSemiTones
    (soundtouch_setChannels
       (soundtouch_setSampleRate soundtouch_createInstance rate) inChannels)
    minus_four.

(** The request [main] makes for the selected devices in format [fmt]. *)
Definition request_for {HANDLE : Type} `{SoundTouch HANDLE} (host : Host HANDLE)
    (rate : Z) (fmt : PaSampleFormat) : OpenRequest HANDLE :=
  let inChannels := pick_channels (maxInputChannels (selected_input host)) in
  let outChannels := pick_channels (maxOutputChannels (selected_output host)) in
  {| open_input :=
       {| device := host_cin_inputDevice host; channelCount := inChannels;
          sampleFormat := fmt;
          suggestedLatency := defaultLowInputLatency (selected_input host) |};
     open_output :=
       {| device := host_cin_outputDevice host; channelCount := outChannels;
          sampleFormat := fmt;
          suggestedLatency := defaultLowOutputLatency (selected_output host) |};
     open_sampleRate :=
       std_min (defaultSampleRate (selected_input host))
               (defaultSampleRate (selected_output host));
     open_framesPerBuffer := FRAMES_PER_BUFFER;
     open_flags := paNoFlag;
     open_userData := {| hST := configured_engine rate inChannels;
                         format := fmt; channels := inChannels |} |}.

(** The events of lines 164-167, 205-211 and 213-223. *)
Definition engine_events {HANDLE : Type} (rate inChannels : Z) : list (Event HANDLE) :=
  [Call_createInstance; Call_setSampleRate rate; Call_setChannels inChannels;
   Call_setPitchSemiTones minus_four].

Definition open_failure_events {HANDLE : Type} (err : PaError) : list (Event HANDLE) :=
  [Cerr "Failed to open stream: "; Cerr_ErrorText err;
   Call_destroyInstance; Call_Pa_Terminate].

Definition running_events {HANDLE : Type} : list (Event HANDLE) :=
  [Cout "Stream opened successfully. Starting..."; Call_Pa_StartStream;
   Cout "Press ENTER to stop."; Cin;
   Call_Pa_StopStream; Call_Pa_CloseStream;
   Call_destroyInstance; Call_Pa_Terminate].

(** Observers of a trace: was an engine instance created, was the stream
    started. *)
Definition engine_created {HANDLE : Type} (t : list (Event HANDLE)) : bool :=
  existsb (fun ev => match ev with Call_createInstance => true | _ => false end) t.

Definition stream_started {HANDLE : Type} (t : list (Event HANDLE)) : bool :=
  existsb (fun ev => match ev with Call_Pa_StartStream => true | _ => false end) t.

Definition engine_channels {HANDLE : Type} (t : list (Event HANDLE)) : list Z :=
  omap (fun ev => match ev with Call_setChannels c => Some c | _ => None end) t.

(** Hosts with two devices, of which the user picks the first for input and
    the second for output; [answers k] is the driver's answer to the [k]-th
    attempt to open the stream. *)
Definition device_info (maxIn maxOut rate : Z) : PaDeviceInfo :=
  {| maxInputChannels := maxIn; maxOutputChannels := maxOut;
     defaultLowInputLatency := F64.of_int 0;
     defaultLowOutputLatency := F64.of_int 0;
     defaultSampleRate := F64.of_int rate |}.

Definition two_devices (d0 d1 : PaDeviceInfo) (answers : nat -> PaError)
  : Host Loopback :=
  {| host_Pa_Initialize := paNoError;
     host_Pa_GetDeviceCount := 2;
     host_Pa_GetDeviceInfo := fun i => if i =? 0 then d0 else d1;
     host_cin_inputDevice := 0;
     host_cin_outputDevice := 1;
     host_Pa_OpenStream := fun k _ => answers k |}.

(** A stereo microphone at 48 kHz and a mono speaker at 44.1 kHz. *)
Definition stereo_to_mono_host : Host Loopback :=
  two_devices (device_info 2 0 48000) (device_info 0 1 44100) (fun _ => paNoError).

(** Stereo devices whose driver refuses Float32 and accepts Int16. *)
Definition fallback_host : Host Loopback :=
  two_devices (device_info 2 0 48000) (device_info 0 2 44100)
    (fun k => if (k =? 0)%nat then paSampleFormatNotSupported else paNoError).

(** The second device has no output channel. *)
Definition no_output_host : Host Loopback :=
  two_devices (device_info 2 0 48000) (device_info 2 0 44100) (fun _ => paNoError).

(** [shr_below m0 k mrs]: after [k] right shifts of [m0] the record holds a
    lower approximation, strict as soon as a round or sticky bit is set. *)
Definition shr_below (m0 k : Z) (mrs : shr_record) : Prop :=
  0 <= shr_m mrs /\
  shr_m mrs * 2 ^ k <= m0 /\
  (shr_r mrs || shr_s mrs = true -> shr_m mrs * 2 ^ k < m0).


(* ================================================================= *)
(** * Observers and fixtures for the further properties *)

(** The calls that acquire or release something, to count them in a trace. *)
Inductive Call :=
| C_Initialize | C_Terminate
| C_createInstance | C_destroyInstance
| C_OpenStream | C_StartStream | C_StopStream | C_CloseStream.

Definition Call_eqb (a b : Call) : bool :=
  match a, b with
  | C_Initialize, C_Initialize | C_Terminate, C_Terminate
  | C_createInstance, C_createInstance | C_destroyInstance, C_destroyInstance
  | C_OpenStream, C_OpenStream | C_StartStream, C_StartStream
  | C_StopStream, C_StopStream | C_CloseStream, C_CloseStream => true
  | _, _ => false
  end.

Definition call_of {HANDLE : Type} (ev : Event HANDLE) : option Call :=
  match ev with
  | Call_Pa_Initialize => Some C_Initialize
  | Call_Pa_Terminate => Some C_Terminate
  | Call_createInstance => Some C_createInstance
  | Call_destroyInstance => Some C_destroyInstance
  | Call_Pa_OpenStream _ => Some C_OpenStream
  | Call_Pa_StartStream => Some C_StartStream
  | Call_Pa_StopStream => Some C_StopStream
  | Call_Pa_CloseStream => Some C_CloseStream
  | _ => None
  end.

Fixpoint count_calls {HANDLE : Type} (c : Call) (t : list (Event HANDLE)) : nat :=
  match t with
  | [] => O
  | ev :: t' =>
      match call_of ev with
      | Some c' => if Call_eqb c c' then S (count_calls c t') else count_calls c t'
      | None => count_calls c t'
      end
  end.

(** The ids of the devices a run lists, in order. *)
Definition listed_devices {HANDLE : Type} (t : list (Event HANDLE)) : list Z :=
  omap (fun ev => match ev with Cout_device id => Some id | _ => None end) t.

(** The run of [main] for selected devices that offer channels, when the
    sample rate truncates to [rate]. *)
Definition negotiated_run {HANDLE : Type} `{SoundTouch HANDLE} (host : Host HANDLE)
    (rate : Z) : MainResult HANDLE :=
  let inChannels := pick_channels (maxInputChannels (selected_input host)) in
  let req1 := request_for host rate paFloat32 in
  let req2 := request_for host rate paInt16 in
  let err1 := host_Pa_OpenStream host 0%nat req1 in
  let err2 := host_Pa_OpenStream host 1%nat req2 in
  let attempts :=
    if err1 =? paSampleFormatNotSupported
    then [Call_Pa_OpenStream req1;
          Cerr "Float32 not supported, retrying with Int16...";
          Call_Pa_OpenStream req2]
    else [Call_Pa_OpenStream req1] in
  let err := if err1 =? paSampleFormatNotSupported then err2 else err1 in
  let cbData := if err1 =? paSampleFormatNotSupported
                then open_userData req2 else open_userData req1 in
  {| exit_code := if err =? paNoError then 0 else -1;
     trace := selection_events host ++ engine_events rate inChannels ++
              attempts ++
              (if err =? paNoError then running_events
               else open_failure_events err);
     stream_data := if err =? paNoError then Some cbData else None |}.

(** The five ways a run of [main] can go. *)
Inductive RunShape {HANDLE : Type} `{SoundTouch HANDLE} (host : Host HANDLE)
  : MainResult HANDLE -> Prop :=
| Run_init_failed :
    host_Pa_Initialize host <> paNoError ->
    RunShape host
      {| exit_code := -1;
         trace := [Call_Pa_Initialize; Cerr "PortAudio init failed: ";
                   Cerr_ErrorText (host_Pa_Initialize host)];
         stream_data := None |}
| Run_enumeration_failed :
    host_Pa_Initialize host = paNoError ->
    host_Pa_GetDeviceCount host < 0 ->
    RunShape host
      {| exit_code := -1;
         trace := [Call_Pa_Initialize; Call_Pa_GetDeviceCount; Cerr "ERROR: ";
                   Cerr_ErrorText (host_Pa_GetDeviceCount host); Call_Pa_Terminate];
         stream_data := None |}
| Run_invalid_id :
    host_Pa_Initialize host = paNoError ->
    0 <= host_Pa_GetDeviceCount host ->
    ~ (0 <= host_cin_inputDevice host < host_Pa_GetDeviceCount host /\
       0 <= host_cin_outputDevice host < host_Pa_GetDeviceCount host) ->
    RunShape host
      {| exit_code := -1;
         trace := selection_events host ++
                  [Cerr "Invalid device ID."; Call_Pa_Terminate];
         stream_data := None |}
| Run_unsupported :
    devices_selected host ->
    maxInputChannels (selected_input host) <= 0 \/
    maxOutputChannels (selected_output host) <= 0 ->
    RunShape host
      {| exit_code := -1;
         trace := selection_events host ++
                  [Cerr "Selected devices do not support required I/O.";
                   Call_Pa_Terminate];
         stream_data := None |}
| Run_negotiated (rate : Z) :
    devices_selected host ->
    0 < maxInputChannels (selected_input host) ->
    0 < maxOutputChannels (selected_output host) ->
    cast_uint (std_min (defaultSampleRate (selected_input host))
                       (defaultSampleRate (selected_output host))) = Some rate ->
    RunShape host (negotiated_run host rate).

(** The check behind the exactness of the Fixed16-to-normalized conversion:
    the result is a binary32 number in [[-1.0, 1.0)], and multiplying it by
    [32768.0f] gives the sample back, as a float and as the integer it
    truncates to. *)
Definition normalized_exact (s : Z) : bool :=
  let x := toNormalized s in
  sample_ok x && F32.leb F32.minus_one x && F32.ltb x F32.one &&
  SFeqb (F32.mul x F32.c32768) (F32.of_int s) &&
  match float_trunc (F32.mul x F32.c32768) with
  | Some t => t =? s
  | None => false
  end.

(** A second test double: an engine that hands back at once, and in full,
    the samples it was last fed. *)
Record Echo := { echo_held : list spec_float }.

Definition echo_receive (h : Echo) (buf : list spec_float) (maxSamples : Z)
  : Echo * list spec_float * Z :=
  ({| echo_held := [] |},
   take (length buf) (echo_held h ++ drop (length (echo_held h)) buf),
   maxSamples).

#[export] Instance echo_engine : SoundTouch Echo := {
  soundtouch_createInstance := {| echo_held := [] |};
  soundtouch_setSampleRate h _ := h;
  soundtouch_setChannels h _ := h;
  soundtouch_setPitchSemiTones h _ := h;
  soundtouch_putSamples h samples _ := {| echo_held := samples |};
  soundtouch_receiveSamples := echo_receive
}.

Definition echo_float32 : CallbackData Echo :=
  {| hST := {| echo_held := [] |}; format := paFloat32; channels := 2 |}.

(** An input that agrees with [sample_input] on the first two frames only. *)
Definition sample_input_longer : RawInput :=
  {| as_float := fun i => if (i <? 4)%nat then as_float sample_input i else f_1_5;
     as_int16 := fun i => if (i <? 4)%nat then as_int16 sample_input i else 32767 |}.

(** A stream whose format is neither of the two the callback knows. *)
Definition stereo_int32 : CallbackData Loopback :=
  {| hST := loopback0; format := 2; channels := 2 |}.


(** Hosts on which [main] fails early. *)
Definition init_failure_host : Host Loopback :=
  {| host_Pa_Initialize := -10000;
     host_Pa_GetDeviceCount := 2;
     host_Pa_GetDeviceInfo := fun _ => device_info 2 2 44100;
     host_cin_inputDevice := 0;
     host_cin_outputDevice := 1;
     host_Pa_OpenStream := fun _ _ => paNoError |}.

Definition enumeration_failure_host : Host Loopback :=
  {| host_Pa_Initialize := paNoError;
     host_Pa_GetDeviceCount := -10000;
     host_Pa_GetDeviceInfo := fun _ => device_info 2 2 44100;
     host_cin_inputDevice := 0;
     host_cin_outputDevice := 1;
     host_Pa_OpenStream := fun _ _ => paNoError |}.

Definition invalid_id_host : Host Loopback :=
  {| host_Pa_Initialize := paNoError;
     host_Pa_GetDeviceCount := 2;
     host_Pa_GetDeviceInfo := fun _ => device_info 2 2 44100;
     host_cin_inputDevice := 0;
     host_cin_outputDevice := 2;
     host_Pa_OpenStream := fun _ _ => paNoError |}.

Definition no_device_host : Host Loopback :=
  {| host_Pa_Initialize := paNoError;
     host_Pa_GetDeviceCount := 0;
     host_Pa_GetDeviceInfo := fun _ => device_info 2 2 44100;
     host_cin_inputDevice := 0;
     host_cin_outputDevice := 0;
     host_Pa_OpenStream := fun _ _ => paNoError |}.

(** What every request to open the stream has in common. *)
Definition request_ok {HANDLE : Type} (host : Host HANDLE) (req : OpenRequest HANDLE)
  : Prop :=
  device (open_input req) = host_cin_inputDevice host /\
  device (open_output req) = host_cin_outputDevice host /\
  1 <= channelCount (open_input req) <= 2 /\
  channelCount (open_input req) <= maxInputChannels (selected_input host) /\
  1 <= channelCount (open_output req) <= 2 /\
  channelCount (open_output req) <= maxOutputChannels (selected_output host) /\
  sampleFormat (open_input req) = sampleFormat (open_output req) /\
  sampleFormat (open_input req) = format (open_userData req) /\
  suggestedLatency (open_input req) = defaultLowInputLatency (selected_input host) /\
  suggestedLatency (open_output req) = defaultLowOutputLatency (selected_output host) /\
  open_framesPerBuffer req = FRAMES_PER_BUFFER /\
  open_flags req = paNoFlag.

(** The normalized samples the input conversion produces from a buffer that
    is not null: a copy in Float32 mode, the samples divided by [32768.0f]
    in Int16 mode, and the untouched zeros otherwise. *)
Definition normalized_input (fmt : PaSampleFormat) (p : RawInput) (n : nat)
  : list spec_float :=
  if fmt =? paFloat32 then map (as_float p) (seq 0 n)
  else if fmt =? paInt16 then map (fun i => toNormalized (as_int16 p i)) (seq 0 n)
  else replicate n F32.zero.

(** Stereo devices that report rates of [2^32] and [2^33] Hz, beyond what
    an [unsigned int] holds. *)
Definition unconvertible_rate_host : Host Loopback :=
  two_devices (device_info 2 0 4294967296) (device_info 0 2 8589934592)
    (fun _ => paNoError).

(* ================================================================= *)
(** * Properties of binary32 rounding *)

(** The widths of the machine integers, as numbers [lia] can use. *)
Ltac pow2 :=
  change (2 ^ 31) with 2147483648 in *;
  change (2 ^ 32) with 4294967296 in *;
  change (2 ^ 64) with 18446744073709551616 in *.

Ltac pow2_lia := pow2; lia.

(** The four outcomes of the attempts to open the stream. *)
Ltac negotiated_cases :=
  unfold negotiated_run; cbn [exit_code trace stream_data];
  destruct (_ =? paSampleFormatNotSupported); destruct (_ =? paNoError).

Lemma digits2_pos_bounds (m : positive) :
  2 ^ (Zpos (digits2_pos m) - 1) <= Zpos m < 2 ^ Zpos (digits2_pos m).
Proof.
  induction m as [m IH | m IH |]; cbn [digits2_pos].
  - rewrite Pos2Z.inj_succ.
    replace (Z.succ (Zpos (digits2_pos m)) - 1) with (Z.succ (Zpos (digits2_pos m) - 1)) by lia.
    rewrite !Z.pow_succ_r by lia. lia.
  - rewrite Pos2Z.inj_succ.
    replace (Z.succ (Zpos (digits2_pos m)) - 1) with (Z.succ (Zpos (digits2_pos m) - 1)) by lia.
    rewrite !Z.pow_succ_r by lia. lia.
  - cbn. lia.
Qed.

Lemma shr_1_below (m0 k : Z) (mrs : shr_record) :
  0 <= k -> shr_below m0 k mrs -> shr_below m0 (k + 1) (shr_1 mrs).
Proof.
  intros Hk (Hm & Hle & Hlt).
  assert (Hp : 0 < 2 ^ k) by (apply Z.pow_pos_nonneg; lia).
  unfold shr_below.
  rewrite Z.pow_add_r, Z.pow_1_r by lia.
  destruct mrs as [m r s]; cbn [shr_m shr_r shr_s] in *.
  destruct m as [| [p | p |] | p]; cbn [shr_1 shr_m shr_r shr_s]; try lia.
  all: repeat split; try lia; try nia.
  all: cbn [orb]; intros H; specialize (Hlt H); nia.
Qed.

Lemma iter_shr_1_below (m0 : Z) (p : positive) :
  forall (k : Z) (mrs : shr_record),
    0 <= k -> shr_below m0 k mrs ->
    shr_below m0 (k + Zpos p) (SpecFloat.iter_pos shr_1 p mrs).
Proof.
  induction p as [p IH | p IH |]; intros k mrs Hk H; cbn [SpecFloat.iter_pos].
  - replace (k + Zpos p~1) with (k + 1 + Zpos p + Zpos p) by lia.
    apply IH; [lia|]. apply IH; [lia|]. now apply shr_1_below.
  - replace (k + Zpos p~0) with (k + Zpos p + Zpos p) by lia.
    apply IH; [lia|]. now apply IH.
  - now apply shr_1_below.
Qed.

Lemma shr_fexp_exact_below (prec emax m e : Z) :
  0 <= m ->
  snd (shr_fexp prec emax m e loc_Exact) = Z.max e (fexp prec emax (Zdigits2 m + e)) /\
  shr_below m (snd (shr_fexp prec emax m e loc_Exact) - e)
            (fst (shr_fexp prec emax m e loc_Exact)).
Proof.
  intros Hm. unfold shr_fexp, shr. cbn [shr_record_of_loc].
  assert (H0 : shr_below m 0 {| shr_m := m; shr_r := false; shr_s := false |}).
  { unfold shr_below; cbn. repeat split; lia || discriminate. }
  destruct (fexp prec emax (Zdigits2 m + e) - e) as [| p | p] eqn:Hn; cbn [fst snd].
  - split; [lia|]. now replace (e - e) with 0 by lia.
  - split; [lia|]. replace (e + Zpos p - e) with (0 + Zpos p) by lia.
    now apply iter_shr_1_below.
  - split; [lia|]. now replace (e - e) with 0 by lia.
Qed.

Lemma round_nearest_even_below (m0 k B : Z) (mrs : shr_record) :
  0 <= k -> shr_below m0 k mrs -> m0 <= B * 2 ^ k ->
  0 <= round_nearest_even (shr_m mrs) (loc_of_shr_record mrs) <= B.
Proof.
  intros Hk (Hm & Hle & Hlt) HB.
  assert (Hp : 0 < 2 ^ k) by (apply Z.pow_pos_nonneg; lia).
  destruct mrs as [m r s]; cbn [shr_m shr_r shr_s] in *.
  assert (Hup : r || s = true -> m + 1 <= B).
  { intros H. specialize (Hlt H). nia. }
  assert (Hm' : m <= B) by nia.
  destruct r, s; cbn [loc_of_shr_record round_nearest_even orb] in *;
    try destruct (Z.even m); lia.
Qed.

(** Below [2^15] a binary32 exponent is at most [-9]. *)
Lemma fexp32_small (m e : Z) :
  0 <= m -> e <= -9 -> m <= 32767 * 2 ^ (- e) ->
  Z.max e (fexp 24 128 (Zdigits2 m + e)) <= -9.
Proof.
  intros Hm He Hle. unfold fexp, emin.
  destruct m as [| p | p]; cbn [Zdigits2]; [lia | | lia].
  destruct (digits2_pos_bounds p) as [Hlo _].
  assert (Zpos (digits2_pos p) - 1 < 15 - e); [| lia].
  apply (Z.pow_lt_mono_r_iff 2); [lia | lia |].
  replace (15 - e) with (15 + - e) by lia.
  rewrite Z.pow_add_r by lia. change (2 ^ 15) with 32768.
  assert (0 < 2 ^ (- e)) by (apply Z.pow_pos_nonneg; lia). lia.
Qed.

Lemma cast_int16_finite_small (sx : bool) (p : positive) (e : Z) :
  e <= -9 -> Zpos p <= 32767 * 2 ^ (- e) ->
  exists t, cast_int16 (S754_finite sx p e) = Some t /\ -32767 <= t <= 32767.
Proof.
  intros He Hp. unfold cast_int16, cast_range, float_trunc.
  destruct e as [| q | q]; try lia.
  change (- Zneg q) with (Zpos q) in Hp.
  assert (Hpow : 0 < 2 ^ Zpos q) by (apply Z.pow_pos_nonneg; lia).
  assert (Ha : 0 <= Zpos p / 2 ^ Zpos q <= 32767).
  { split; [apply Z.div_pos; lia |].
    apply Z.div_le_upper_bound; lia. }
  set (a := Zpos p / 2 ^ Zpos q) in *.
  destruct sx.
  - exists (- a). 
    replace ((-32768 <=? - a) && (- a <=? 32767)) with true; [split; [reflexivity | lia] |].
    symmetry; apply andb_true_iff; split; apply Z.leb_le; lia.
  - exists a.
    replace ((-32768 <=? a) && (a <=? 32767)) with true; [split; [reflexivity | lia] |].
    symmetry; apply andb_true_iff; split; apply Z.leb_le; lia.
Qed.

Lemma binary_round_aux_int16 (sx : bool) (m : positive) (e : Z) :
  e <= -9 -> Zpos m <= 32767 * 2 ^ (- e) ->
  exists t, cast_int16 (binary_round_aux 24 128 sx (Zpos m) e loc_Exact) = Some t /\
            -32767 <= t <= 32767.
Proof.
  intros He Hm. unfold binary_round_aux.
  destruct (shr_fexp_exact_below 24 128 (Zpos m) e) as [He1 Hb1]; [lia |].
  pose proof (fexp32_small (Zpos m) e ltac:(lia) He Hm) as Hs1.
  destruct (shr_fexp 24 128 (Zpos m) e loc_Exact) as [mrs1 e1]; cbn [fst snd] in *.
  rewrite <- He1 in Hs1.
  set (m2 := round_nearest_even (shr_m mrs1) (loc_of_shr_record mrs1)).
  assert (H2 : 0 <= m2 <= 32767 * 2 ^ (- e1)).
  { apply (round_nearest_even_below (Zpos m) (e1 - e)); [lia | assumption |].
    rewrite <- Z.mul_assoc, <- Z.pow_add_r by lia.
    now replace (- e1 + (e1 - e)) with (- e) by lia. }
  destruct (shr_fexp_exact_below 24 128 m2 e1) as [He2 Hb2]; [lia |].
  pose proof (fexp32_small m2 e1 ltac:(lia) Hs1 ltac:(lia)) as Hs2.
  destruct (shr_fexp 24 128 m2 e1 loc_Exact) as [mrs2 e2]; cbn [fst snd] in *.
  rewrite <- He2 in Hs2.
  destruct Hb2 as (Hm3 & Hle3 & _).
  assert (H3 : shr_m mrs2 <= 32767 * 2 ^ (- e2)).
  { assert (Hpow : 0 < 2 ^ (e2 - e1)) by (apply Z.pow_pos_nonneg; lia).
    assert (Heq : 2 ^ (- e1) = 2 ^ (- e2) * 2 ^ (e2 - e1)).
    { rewrite <- Z.pow_add_r by lia. f_equal; lia. }
    rewrite Heq in H2. nia. }
  destruct (shr_m mrs2) as [| p | p]; [| | lia].
  - exists 0. split; [reflexivity | lia].
  - replace (e2 <=? 128 - 24) with true by (symmetry; apply Z.leb_le; lia).
    now apply cast_int16_finite_small.
Qed.

Lemma valid32_mantissa (s : bool) (m : positive) (e : Z) :
  F32.valid (S754_finite s m e) = true -> Zpos m < 2 ^ 24 /\ -149 <= e.
Proof.
  unfold F32.valid, valid_binary, bounded, canonical_mantissa, fexp, emin,
    F32.prec, F32.emax.
  intros H. apply andb_true_iff in H. destruct H as [H _].
  apply Z.eqb_eq in H.
  destruct (digits2_pos_bounds m) as [_ Hhi].
  split; [| lia].
  apply Z.lt_le_trans with (1 := Hhi).
  apply Z.pow_le_mono_r; lia.
Qed.

Lemma unit_interval_finite (s : bool) (m : positive) (e : Z) :
  F32.valid (S754_finite s m e) = true ->
  F32.leb F32.minus_one (S754_finite s m e) = true ->
  F32.leb (S754_finite s m e) F32.one = true ->
  e <= -23 /\ Zpos m <= 2 ^ (- e).
Proof.
  intros Hv Hlo Hhi.
  destruct (valid32_mantissa _ _ _ Hv) as [Hm _].
  assert (Hcase : e <= -24 \/ (e = -23 /\ Zpos m <= 8388608)).
  { unfold F32.leb, SFleb, SFcompare, F32.one, F32.minus_one in *.
    destruct s.
    - destruct (Z.compare_spec (-23) e) as [E | E | E]; try discriminate; [| lia].
      right. split; [lia |].
      rewrite Pos.compare_cont_spec in Hlo. cbn [Pos.switch_Eq] in Hlo.
      rewrite (Pos.compare_antisym m 8388608) in Hlo.
      apply Pos2Z.pos_le_pos. unfold Pos.le.
      destruct (m ?= 8388608)%positive; cbn [CompOpp Pos.switch_Eq] in Hlo; congruence.
    - destruct (Z.compare_spec e (-23)) as [E | E | E]; try discriminate; [| lia].
      right. split; [lia |].
      rewrite Pos.compare_cont_spec in Hhi. cbn [Pos.switch_Eq] in Hhi.
      apply Pos2Z.pos_le_pos. unfold Pos.le.
      destruct (m ?= 8388608)%positive; cbn [Pos.switch_Eq] in Hhi; congruence. }
  destruct Hcase as [E | [E P]].
  - split; [lia |]. apply Z.le_trans with (2 ^ 24); [lia |].
    apply Z.pow_le_mono_r; lia.
  - subst e. split; [lia |]. exact P.
Qed.

Lemma SFcompare_swap (a b : spec_float) :
  SFcompare b a = option_map CompOpp (SFcompare a b).
Proof.
  destruct a as [sa | sa | | sa ma ea], b as [sb | sb | | sb mb eb];
    try destruct sa; try destruct sb; try reflexivity; cbn [SFcompare option_map].
  - rewrite (Z.compare_antisym ea eb).
    destruct (ea ?= eb); cbn [CompOpp]; try reflexivity.
    rewrite (Pos.compare_cont_antisym ma mb Eq). cbn [CompOpp].
    now destruct (Pos.compare_cont Eq ma mb).
  - rewrite (Z.compare_antisym ea eb).
    destruct (ea ?= eb); cbn [CompOpp]; try reflexivity.
    now rewrite (Pos.compare_cont_antisym ma mb Eq).
Qed.

Lemma ltb_false_of_leb (a b : spec_float) :
  SFleb a b = true -> SFltb b a = false.
Proof.
  unfold SFleb, SFltb. rewrite (SFcompare_swap a b).
  destruct (SFcompare a b) as [[| |] |]; cbn; congruence.
Qed.

Lemma clamp_unit_inside (x : spec_float) :
  F32.leb F32.minus_one x = true -> F32.leb x F32.one = true -> clamp_unit x = x.
Proof.
  intros Hlo Hhi. unfold clamp_unit, F32.ltb.
  now rewrite (ltb_false_of_leb _ _ Hhi), (ltb_false_of_leb _ _ Hlo).
Qed.

Lemma clamp_unit_above (x : spec_float) :
  F32.ltb F32.one x = true -> clamp_unit x = F32.one.
Proof. intros H. unfold clamp_unit. now rewrite H. Qed.

Lemma clamp_unit_below (x : spec_float) :
  F32.ltb x F32.minus_one = true -> clamp_unit x = F32.minus_one.
Proof.
  intros H. unfold clamp_unit.
  assert (H1 : F32.ltb F32.one x = false).
  { unfold F32.ltb, SFltb, F32.one, F32.minus_one in *.
    destruct x as [s | s | | s m e]; try destruct s; try reflexivity; cbn in H |- *;
      discriminate. }
  now rewrite H1, H.
Qed.

(* ================================================================= *)
(** * The format converter *)

Lemma toFixed16_inside (x : spec_float) :
  F32.valid x = true ->
  F32.leb F32.minus_one x = true -> F32.leb x F32.one = true ->
  exists r, toFixed16 x = Some r /\ -32767 <= r <= 32767.
Proof.
  intros Hv Hlo Hhi. unfold toFixed16.
  rewrite (clamp_unit_inside x Hlo Hhi).
  destruct x as [s | s | | s m e].
  - exists 0. split; [reflexivity | lia].
  - destruct s; discriminate.
  - discriminate.
  - destruct (unit_interval_finite s m e Hv Hlo Hhi) as [He Hm].
    unfold F32.mul, F32.c32767, SFmul.
    change (Zpos (m * 16776704)) with (Zpos m * 16776704).
    apply binary_round_aux_int16; [lia |].
    replace (- (e + -9)) with (- e + 9) by lia.
    rewrite Z.pow_add_r by lia. change (2 ^ 9) with 512. lia.
Qed.

Lemma toFixed16_above (x : spec_float) :
  F32.ltb F32.one x = true -> toFixed16 x = Some 32767.
Proof. intros H. unfold toFixed16. now rewrite (clamp_unit_above x H). Qed.

Lemma toFixed16_below (x : spec_float) :
  F32.ltb x F32.minus_one = true -> toFixed16 x = Some (-32767).
Proof. intros H. unfold toFixed16. now rewrite (clamp_unit_below x H). Qed.

(** Two numbers are comparable: what is not above is below or equal. *)
Lemma leb_of_not_ltb (a b : spec_float) :
  is_nan a = false -> is_nan b = false -> SFltb b a = false -> SFleb a b = true.
Proof.
  unfold SFltb, SFleb. rewrite (SFcompare_swap a b).
  destruct a as [sa | sa | | sa ma ea], b as [sb | sb | | sb mb eb];
    try discriminate; cbn [SFcompare option_map];
    try destruct sa; try destruct sb; cbn; try congruence;
    destruct (ea ?= eb); cbn; try congruence;
    destruct (Pos.compare_cont Eq ma mb); cbn; congruence.
Qed.

(** The conversion is defined on every binary32 number. *)
Lemma toFixed16_defined (x : spec_float) :
  sample_ok x = true -> exists r, toFixed16 x = Some r /\ -32767 <= r <= 32767.
Proof.
  unfold sample_ok. intros H. apply andb_true_iff in H. destruct H as [Hv Hn].
  apply negb_true_iff in Hn.
  destruct (F32.ltb F32.one x) eqn:Hhi.
  { exists 32767. split; [now apply toFixed16_above | lia]. }
  destruct (F32.ltb x F32.minus_one) eqn:Hlo.
  { exists (-32767). split; [now apply toFixed16_below | lia]. }
  apply toFixed16_inside; [exact Hv | |].
  - now apply leb_of_not_ltb.
  - now apply leb_of_not_ltb.
Qed.

Lemma z_range_In (n : nat) :
  forall lo s : Z, lo <= s < lo + Z.of_nat n -> In s (z_range n lo).
Proof.
  induction n as [| k IH]; intros lo s Hs; [lia |].
  cbn [z_range]. destruct (Z.eq_dec s lo) as [-> | Hne]; [now left | right].
  apply IH. lia.
Qed.

(** C5.  The Normalized-to-Fixed16 conversion multiplies the clamped sample:
    a binary32 number in [[-1.0, 1.0]] is converted to an integer in
    [[-32767, 32767]], every sample above [1.0f] (also [+inf]) to exactly
    [32767] and every sample below [-1.0f] (also [-inf]) to exactly
    [-32767]. *)
Theorem toFixed16_clamps (x : spec_float) :
  toFixed16 x = cast_int16 (F32.mul (clamp_unit x) F32.c32767) /\
  (F32.valid x = true ->
   F32.leb F32.minus_one x = true -> F32.leb x F32.one = true ->
   clamp_unit x = x /\
   exists r, toFixed16 x = Some r /\ -32767 <= r <= 32767) /\
  (F32.ltb F32.one x = true ->
   clamp_unit x = F32.one /\ toFixed16 x = Some 32767) /\
  (F32.ltb x F32.minus_one = true ->
   clamp_unit x = F32.minus_one /\ toFixed16 x = Some (-32767)).
Proof.
  split; [reflexivity |]. split; [| split].
  - intros Hv Hlo Hhi. split; [now apply clamp_unit_inside |].
    now apply toFixed16_inside.
  - intros H. split; [now apply clamp_unit_above | now apply toFixed16_above].
  - intros H. split; [now apply clamp_unit_below | now apply toFixed16_below].
Qed.

Lemma toFixed16_clamps_witness :
  (exists r, toFixed16 f_0_5 = Some r /\ -32767 <= r <= 32767) /\
  toFixed16 f_1_5 = Some 32767 /\
  toFixed16 f_minus_1_5 = Some (-32767).
Proof.
  split; [| split].
  - apply (toFixed16_clamps f_0_5); reflexivity.
  - apply (toFixed16_clamps f_1_5); reflexivity.
  - apply (toFixed16_clamps f_minus_1_5); reflexivity.
Defined.

Lemma roundtrip_all_int16 : forallb roundtrip_within_one int16_values = true.
Proof. vm_compute. reflexivity. Qed.

(** C3.  Every 16-bit sample [s] survives the round trip through the
    normalized domain within one quantization step: dividing by [32768.0f]
    and converting back yields an integer that differs from [s] by at
    most 1. *)
Theorem fixed16_roundtrip (s : Z) :
  -32768 <= s <= 32767 ->
  exists r, toFixed16 (toNormalized s) = Some r /\ Z.abs (r - s) <= 1.
Proof.
  intros Hs.
  pose proof roundtrip_all_int16 as Hall.
  rewrite forallb_forall in Hall.
  specialize (Hall s). unfold roundtrip_within_one in Hall.
  destruct (toFixed16 (toNormalized s)) as [r |].
  - exists r. split; [reflexivity |]. apply Z.leb_le. apply Hall.
    apply z_range_In. lia.
  - assert (false = true); [| discriminate].
    apply Hall. apply z_range_In. lia.
Qed.

Lemma fixed16_roundtrip_witness :
  -32768 <= 32767 <= 32767 /\
  exists r, toFixed16 (toNormalized 32767) = Some r /\ Z.abs (r - 32767) <= 1.
Proof.
  split; [lia |]. apply (fixed16_roundtrip 32767). lia.
Defined.

(* ================================================================= *)
(** * Buffers and loops *)

Section StoreRange.
Context {A : Type} (f : nat -> A).

Lemma store_range_spec (count : nat) :
  forall (lo : nat) (v : list A),
    (lo + count <= length v)%nat ->
    exists v', store_range f lo count v = Some v' /\
               length v' = length v /\
               forall j : nat,
                 v' !! j = if (lo <=? j)%nat && (j <? lo + count)%nat
                           then Some (f j) else v !! j.
Proof.
  induction count as [| k IH]; intros lo v Hlen; cbn [store_range].
  - exists v. repeat split. intros j.
    destruct (Nat.leb_spec lo j), (Nat.ltb_spec j (lo + 0)); cbn; try reflexivity; lia.
  - destruct (Nat.ltb_spec lo (length v)) as [Hlt | Hge]; [| exfalso; lia].
    destruct (IH (S lo) (<[lo := f lo]> v)) as (v' & Hv' & Hl & Hj).
    { rewrite length_insert. lia. }
    exists v'. split; [exact Hv' |]. split; [now rewrite Hl, length_insert |].
    intros j. rewrite Hj.
    destruct (Nat.leb_spec (S lo) j), (Nat.ltb_spec j (S lo + k)),
      (Nat.leb_spec lo j), (Nat.ltb_spec j (lo + S k)); cbn; try reflexivity; try (exfalso; lia).
    all: first [ apply list_lookup_insert_ne; lia
               | assert (j = lo) by lia; subst j; now apply list_lookup_insert_eq ].
Qed.

Lemma store_range_all (n : nat) (v : list A) :
  length v = n -> store_range f 0 n v = Some (map f (seq 0 n)).
Proof.
  intros Hn.
  destruct (store_range_spec n 0 v) as (v' & Hv' & Hl & Hj); [lia |].
  rewrite Hv'. f_equal. apply list_eq. intros j. rewrite Hj.
  change (map f (seq 0 n)) with (f <$> seq 0 n).
  rewrite list_lookup_fmap.
  destruct (Nat.ltb_spec j (0 + n)) as [Hlt | Hge]; cbn.
  - rewrite lookup_seq_lt by lia. reflexivity.
  - rewrite lookup_seq_ge by lia. cbn. apply lookup_ge_None. lia.
Qed.

End StoreRange.
Lemma wrap_small (z : Z) :
  0 <= z < 2 ^ 31 -> wrap_ulong z = z /\ wrap_int z = z /\ in_int z = true.
Proof.
  intros Hz. unfold wrap_ulong, wrap_int, in_int. pow2.
  repeat split.
  - apply Z.mod_small. lia.
  - rewrite Z.mod_small by lia. lia.
  - apply andb_true_iff. split; apply Z.leb_le; lia.
Qed.

(** The padding loop leaves the first [received * channels] samples as
    they are and stores [0.0f] in all the others. *)
Lemma pad_silence_spec (buf : list spec_float) (received chans fpb : Z) :
  0 <= received <= fpb -> 0 <= chans -> fpb * chans < 2 ^ 31 ->
  Z.of_nat (length buf) = fpb * chans ->
  exists out,
    pad_silence buf received chans (wrap_ulong (fpb * chans)) = Some out /\
    length out = length buf /\
    forall j : nat,
      out !! j = if Z.of_nat j <? received * chans then buf !! j
                 else if Z.of_nat j <? fpb * chans then Some F32.zero
                 else None.
Proof.
  intros Hr Hc Hn Hlen.
  assert (Hlo : 0 <= received * chans <= fpb * chans) by nia.
  destruct (wrap_small (fpb * chans)) as (Hw1 & Hw2 & _); [lia |].
  destruct (wrap_small (received * chans)) as (_ & _ & Hin); [lia |].
  unfold pad_silence. rewrite Hw1, Hw2, Hin. cbn [negb].
  destruct (Z.leb_spec (fpb * chans) (received * chans)) as [Hle | Hlt].
  - exists buf. repeat split. intros j.
    destruct (Z.ltb_spec (Z.of_nat j) (received * chans)); [reflexivity |].
    destruct (Z.ltb_spec (Z.of_nat j) (fpb * chans)); [lia |].
    apply lookup_ge_None. lia.
  - destruct (Z.ltb_spec (received * chans) 0) as [Hneg | _]; [lia |].
    destruct (store_range_spec (fun _ => F32.zero)
                (Z.to_nat (fpb * chans - received * chans))
                (Z.to_nat (received * chans)) buf) as (out & Ho & Hl & Hj); [lia |].
    exists out. split; [exact Ho |]. split; [exact Hl |].
    intros j. rewrite Hj.
    destruct (Z.ltb_spec (Z.of_nat j) (received * chans)),
      (Z.ltb_spec (Z.of_nat j) (fpb * chans)),
      (Nat.leb_spec (Z.to_nat (received * chans)) j),
      (Nat.ltb_spec j (Z.to_nat (received * chans) +
                       Z.to_nat (fpb * chans - received * chans)));
      cbn [andb]; try reflexivity; try (exfalso; lia).
    apply lookup_ge_None. lia.
Qed.

Lemma map_defined_spec {A B : Type} (f : A -> option B) (l : list A) :
  (forall x, In x l -> exists y, f x = Some y) ->
  exists l', map_defined f l = Some l' /\
             length l' = length l /\
             forall (j : nat) (x : A), l !! j = Some x -> l' !! j = f x.
Proof.
  induction l as [| a l IH]; intros Hdef; cbn [map_defined].
  - exists []. repeat split. intros j x Hj. now rewrite lookup_nil in Hj.
  - destruct (Hdef a) as [y Hy]; [now left |].
    destruct IH as (l' & Hl' & Hlen & Hj); [intros x Hx; apply Hdef; now right |].
    rewrite Hy, Hl'. exists (y :: l'). split; [reflexivity |].
    split; [cbn; now rewrite Hlen |].
    intros [| j] x Hx; cbn in Hx |- *.
    + now injection Hx as ->.
    + now apply Hj.
Qed.

Lemma map_defined_lookup {A B : Type} (f : A -> option B) (l : list A) (l' : list B) :
  map_defined f l = Some l' ->
  length l' = length l /\
  forall (j : nat) (x : A), l !! j = Some x -> l' !! j = f x.
Proof.
  revert l'. induction l as [| a l IH]; intros l' H; cbn [map_defined] in H.
  - injection H as <-. split; [reflexivity |]. intros j x Hj.
    now rewrite lookup_nil in Hj.
  - destruct (f a) as [y |] eqn:Hy; [| discriminate].
    destruct (map_defined f l) as [ys |] eqn:Hys; [| discriminate].
    injection H as <-. destruct (IH ys eq_refl) as [Hlen Hj].
    split; [cbn; now rewrite Hlen |].
    intros [| j] x Hx; cbn in Hx |- *.
    + injection Hx as ->. now rewrite Hy.
    + now apply Hj.
Qed.

Lemma vector_alloc_small (n : Z) :
  n < 2 ^ 32 -> vector_alloc n = Some (replicate (Z.to_nat n) F32.zero).
Proof.
  intros Hn. unfold vector_alloc, vector_max_size.
  destruct (Z.ltb_spec (2 ^ 61 - 1) n) as [Hbig | _]; [| reflexivity].
  exfalso. change (2 ^ 61) with 2305843009213693952 in Hbig. pow2_lia.
Qed.

Lemma wrap_uint_small (z : Z) : 0 <= z < 2 ^ 32 -> wrap_uint z = z.
Proof. intros Hz. unfold wrap_uint. now apply Z.mod_small. Qed.

Lemma convert_input_null (fmt : PaSampleFormat) (n : Z) :
  n < 2 ^ 32 ->
  convert_input fmt None n = Some (replicate (Z.to_nat n) F32.zero).
Proof.
  intros Hn. unfold convert_input. rewrite (vector_alloc_small n Hn).
  destruct (fmt =? paFloat32); [reflexivity |].
  destruct (fmt =? paInt16); reflexivity.
Qed.

Lemma convert_input_defined (fmt : PaSampleFormat) (input : option RawInput) (n : Z) :
  n < 2 ^ 32 ->
  exists inFloat, convert_input fmt input n = Some inFloat /\
                  length inFloat = Z.to_nat n.
Proof.
  intros Hn. unfold convert_input. rewrite (vector_alloc_small n Hn).
  assert (Hrep : length (replicate (Z.to_nat n) F32.zero) = Z.to_nat n)
    by apply length_replicate.
  assert (Hz : exists inFloat,
             Some (replicate (Z.to_nat n) F32.zero) = Some inFloat /\
             length inFloat = Z.to_nat n) by (eexists; split; [reflexivity | exact Hrep]).
  destruct (fmt =? paFloat32).
  - destruct input as [p |]; [| exact Hz].
    rewrite (store_range_all _ _ _ Hrep). eexists. split; [reflexivity |].
    now rewrite length_map, length_seq.
  - destruct (fmt =? paInt16); [| exact Hz].
    destruct input as [p |]; [| exact Hz].
    destruct (Z.ltb_spec n (2 ^ 32)) as [_ | Hge]; [| lia].
    rewrite (store_range_all _ _ _ Hrep). eexists. split; [reflexivity |].
    now rewrite length_map, length_seq.
Qed.

Lemma sample_ok_Forall_lookup (buf out : list spec_float) :
  Forall (fun x => sample_ok x = true) buf ->
  (forall j : nat, out !! j = buf !! j \/ out !! j = Some F32.zero \/ out !! j = None) ->
  forall x, In x out -> exists y, toFixed16 x = Some y.
Proof.
  intros Hbuf Hout x Hx.
  apply list_elem_of_In, list_elem_of_lookup in Hx. destruct Hx as [j Hj].
  assert (Hok : sample_ok x = true).
  { destruct (Hout j) as [E | [E | E]]; rewrite Hj in E.
    - rewrite Forall_lookup in Hbuf. now apply (Hbuf j).
    - now injection E as ->.
    - discriminate. }
  destruct (toFixed16_defined x Hok) as (y & Hy & _). now exists y.
Qed.

Section CallbackFacts.
Context {HANDLE : Type} `{SoundTouch HANDLE}.

Lemma feed_and_drain_eq (data : CallbackData HANDLE) (input : option RawInput)
    (fpb : Z) :
  0 <= fpb * channels data < 2 ^ 31 ->
  exists inFloat,
    convert_input (format data) input (fpb * channels data) = Some inFloat /\
    length inFloat = Z.to_nat (fpb * channels data) /\
    feed_and_drain data input fpb =
      Some (soundtouch_receiveSamples (feed (hST data) inFloat (wrap_uint fpb))
              (replicate (Z.to_nat (fpb * channels data)) F32.zero)
              (wrap_uint fpb)).
Proof.
  intros Hn.
  destruct (wrap_small _ Hn) as (Hw & _ & _).
  destruct (convert_input_defined (format data) input (fpb * channels data))
    as (inFloat & Hin & Hlen).
  { pow2_lia. }
  exists inFloat. split; [exact Hin |]. split; [exact Hlen |].
  unfold feed_and_drain. rewrite Hw, Hin, vector_alloc_small by pow2_lia.
  reflexivity.
Qed.

Lemma audioCallback_run (data : CallbackData HANDLE) (input : option RawInput)
    (fpb : Z) (h2 : HANDLE) (buf : list spec_float) (received : Z) :
  0 <= fpb -> 0 <= channels data -> fpb * channels data < 2 ^ 31 ->
  feed_and_drain data input fpb = Some (h2, buf, received) ->
  Z.of_nat (length buf) = fpb * channels data ->
  0 <= received <= fpb ->
  (format data = paInt16 -> Forall (fun x => sample_ok x = true) buf) ->
  exists out output,
    pad_silence buf received (channels data) (wrap_ulong (fpb * channels data))
      = Some out /\
    convert_output (format data) out (wrap_ulong (fpb * channels data))
      = Some output /\
    audioCallback data input fpb =
      Some {| cb_return := paContinue; cb_engine := h2;
              cb_outFloat := out; cb_output := output |}.
Proof.
  intros Hf Hc Hn Hfd Hlen Hr Hok.
  destruct (pad_silence_spec buf received (channels data) fpb Hr Hc Hn Hlen)
    as (out & Hpad & Hlo & Hj).
  destruct (wrap_small (fpb * channels data)) as (Hw & _ & _); [nia |].
  assert (Hout : exists output,
             convert_output (format data) out (fpb * channels data) = Some output).
  { unfold convert_output.
    destruct (format data =? paFloat32); [now eexists |].
    destruct (Z.eqb_spec (format data) paInt16) as [E | _]; [| now eexists].
    destruct (Z.ltb_spec (fpb * channels data) (2 ^ 32)) as [_ | Hge];
      [| pow2_lia].
    destruct (map_defined_spec toFixed16 (take (Z.to_nat (fpb * channels data)) out))
      as (l & Hl & _).
    { rewrite take_ge by lia.
      apply (sample_ok_Forall_lookup buf out (Hok E)).
      intros j. rewrite Hj.
      destruct (Z.of_nat j <? received * channels data); [now left |].
      destruct (Z.of_nat j <? fpb * channels data); auto. }
    rewrite Hl. now eexists. }
  destruct Hout as [output Hout].
  exists out, output. rewrite Hw in *. split; [exact Hpad |]. split; [exact Hout |].
  unfold audioCallback. rewrite Hfd, Hw.
  destruct (Z.eqb_spec (Z.of_nat (length buf)) (fpb * channels data)) as [_ | Hne];
    [| contradiction].
  cbn [negb]. now rewrite Hpad, Hout.
Qed.

Lemma audioCallback_return_value (data : CallbackData HANDLE)
    (input : option RawInput) (fpb : Z) (r : CallbackResult HANDLE) :
  audioCallback data input fpb = Some r -> cb_return r = paContinue.
Proof.
  unfold audioCallback. intros Hr.
  destruct (feed_and_drain data input fpb) as [[[h buf] received] |]; [| discriminate].
  destruct (negb _); [discriminate |].
  destruct (pad_silence _ _ _ _); [| discriminate].
  destruct (convert_output _ _ _); [| discriminate].
  now injection Hr as <-.
Qed.

Lemma audioCallback_engine (data : CallbackData HANDLE)
    (input : option RawInput) (fpb : Z) (h2 : HANDLE) (buf : list spec_float)
    (received : Z) (r : CallbackResult HANDLE) :
  feed_and_drain data input fpb = Some (h2, buf, received) ->
  audioCallback data input fpb = Some r -> cb_engine r = h2.
Proof.
  intros Hfd Hr. unfold audioCallback in Hr. rewrite Hfd in Hr.
  destruct (negb _); [discriminate |].
  destruct (pad_silence _ _ _ _); [| discriminate].
  destruct (convert_output _ _ _); [| discriminate].
  now injection Hr as <-.
Qed.

Lemma audioCallback_output (data : CallbackData HANDLE)
    (input : option RawInput) (fpb : Z) (r : CallbackResult HANDLE) :
  audioCallback data input fpb = Some r ->
  convert_output (format data) (cb_outFloat r)
    (wrap_ulong (fpb * channels data)) = Some (cb_output r) /\
  Z.of_nat (length (cb_outFloat r)) = wrap_ulong (fpb * channels data).
Proof.
  unfold audioCallback. intros Hr.
  destruct (feed_and_drain data input fpb) as [[[h buf] received] |]; [| discriminate].
  destruct (Z.eqb_spec (Z.of_nat (length buf)) (wrap_ulong (fpb * channels data)))
    as [Hlen | _]; [| discriminate].
  cbn [negb] in Hr.
  destruct (pad_silence _ _ _ _) as [out |] eqn:Hpad; [| discriminate].
  destruct (convert_output _ _ _) as [output |] eqn:Hout; [| discriminate].
  injection Hr as <-. cbn [cb_outFloat cb_output]. split; [exact Hout |].
  rewrite <- Hlen. f_equal.
  unfold pad_silence in Hpad.
  destruct (negb _); [discriminate |].
  destruct (_ <=? _); [now injection Hpad as -> |].
  destruct (_ <? 0); [discriminate |].
  clear -Hpad. revert Hpad.
  generalize (Z.to_nat (received * channels data)) as lo.
  generalize (Z.to_nat (wrap_int (wrap_ulong (fpb * channels data)) -
                        received * channels data)) as count.
  intros count. revert buf.
  induction count as [| k IH]; intros buf lo Hs; cbn [store_range] in Hs.
  - now injection Hs as ->.
  - destruct (lo <? length buf)%nat; [| discriminate].
    apply IH in Hs. now rewrite Hs, length_insert.
Qed.

Lemma audioCallback_padded (data : CallbackData HANDLE) (input : option RawInput)
    (fpb : Z) (h2 : HANDLE) (buf : list spec_float) (received : Z) :
  0 <= fpb -> 0 <= channels data -> fpb * channels data < 2 ^ 31 ->
  feed_and_drain data input fpb = Some (h2, buf, received) ->
  Z.of_nat (length buf) = fpb * channels data ->
  0 <= received <= fpb ->
  (format data = paInt16 -> Forall (fun x => sample_ok x = true) buf) ->
  exists r,
    audioCallback data input fpb = Some r /\
    silence_padded buf received (channels data) fpb (cb_outFloat r) /\
    length (cb_outFloat r) = length buf /\
    convert_output (format data) (cb_outFloat r) (fpb * channels data)
      = Some (cb_output r).
Proof.
  intros Hf Hc Hn Hfd Hlen Hr Hok.
  destruct (audioCallback_run data input fpb h2 buf received Hf Hc Hn Hfd Hlen Hr Hok)
    as (out & output & Hpad & Hout & Hcb).
  destruct (pad_silence_spec buf received (channels data) fpb Hr Hc Hn Hlen)
    as (out' & Hpad' & Hlo & Hj).
  rewrite Hpad in Hpad'. injection Hpad' as <-.
  destruct (wrap_small (fpb * channels data)) as (Hw & _ & _); [nia |].
  rewrite Hw in Hout.
  exists {| cb_return := paContinue; cb_engine := h2;
            cb_outFloat := out; cb_output := output |}.
  cbn [cb_outFloat cb_output]. auto.
Qed.

End CallbackFacts.
Lemma paInt16_not_paFloat32 (fmt : PaSampleFormat) :
  fmt = paInt16 -> (fmt =? paFloat32) = false.
Proof. now intros ->. Qed.

Lemma silence_padded_none (buf out : list spec_float) (chans fpb : Z) :
  0 <= fpb * chans ->
  length out = Z.to_nat (fpb * chans) ->
  silence_padded buf 0 chans fpb out ->
  out = replicate (Z.to_nat (fpb * chans)) F32.zero.
Proof.
  intros Hn Hlen Hpad. apply list_eq. intros j. rewrite (Hpad j).
  destruct (Z.ltb_spec (Z.of_nat j) (0 * chans)) as [Hlt | _]; [lia |].
  destruct (Z.ltb_spec (Z.of_nat j) (fpb * chans)) as [Hlt | Hge].
  - symmetry. apply lookup_replicate_2. lia.
  - symmetry. apply lookup_ge_None. rewrite length_replicate. lia.
Qed.

Lemma silence_padded_all (buf out : list spec_float) (chans fpb : Z) :
  Z.of_nat (length buf) = fpb * chans ->
  silence_padded buf fpb chans fpb out ->
  out = buf.
Proof.
  intros Hlen Hpad. apply list_eq. intros j. rewrite (Hpad j).
  destruct (Z.ltb_spec (Z.of_nat j) (fpb * chans)) as [Hlt | Hge]; [reflexivity |].
  symmetry. apply lookup_ge_None. lia.
Qed.

Section PaddingProperties.
Context {HANDLE : Type} `{SoundTouch HANDLE}.

(** C2.  When the engine has drained [received <= framesPerBuffer] frames,
    the callback's output keeps the engine's samples below index
    [received * channels] and is exactly zero from there to the end of
    the buffer, in the normalized buffer and in the driver's buffer, in
    Float32 and in Fixed16 mode; with [received = 0] the whole buffer is
    silence, with [received = framesPerBuffer] nothing is padded. *)
Theorem audioCallback_pads_with_silence (data : CallbackData HANDLE)
    (input : option RawInput) (fpb : Z) (h2 : HANDLE) (buf : list spec_float)
    (received : Z) :
  0 <= fpb -> 0 <= channels data -> fpb * channels data < 2 ^ 31 ->
  feed_and_drain data input fpb = Some (h2, buf, received) ->
  Z.of_nat (length buf) = fpb * channels data ->
  0 <= received <= fpb ->
  (format data = paInt16 -> Forall (fun x => sample_ok x = true) buf) ->
  exists r,
    audioCallback data input fpb = Some r /\
    silence_padded buf received (channels data) fpb (cb_outFloat r) /\
    (received = 0 ->
     cb_outFloat r = replicate (Z.to_nat (fpb * channels data)) F32.zero) /\
    (received = fpb -> cb_outFloat r = buf) /\
    (format data = paFloat32 -> cb_output r = OutFloat32 (cb_outFloat r)) /\
    (format data = paInt16 ->
     exists l, cb_output r = OutInt16 l /\
               map_defined toFixed16 (cb_outFloat r) = Some l /\
               forall j : nat,
                 received * channels data <= Z.of_nat j < fpb * channels data ->
                 l !! j = Some 0).
Proof.
  intros Hf Hc Hn Hfd Hlen Hr Hok.
  destruct (audioCallback_padded data input fpb h2 buf received Hf Hc Hn Hfd Hlen Hr Hok)
    as (r & Hcb & Hj & Hlo & Hout).
  exists r. split; [exact Hcb |]. split; [exact Hj |].
  split; [| split; [| split]].
  - intros ->. apply (silence_padded_none buf); [nia | lia | exact Hj].
  - intros ->. now apply (silence_padded_all buf (cb_outFloat r) (channels data) fpb).
  - intros E. unfold convert_output in Hout. rewrite E in Hout.
    cbn in Hout. now injection Hout as <-.
  - intros E. unfold convert_output in Hout.
    rewrite (paInt16_not_paFloat32 _ E), E, Z.eqb_refl in Hout.
    destruct (_ <? 2 ^ 32); [| discriminate].
    rewrite take_ge in Hout by lia.
    destruct (map_defined toFixed16 (cb_outFloat r)) as [l |] eqn:Hl; [| discriminate].
    cbn in Hout. injection Hout as <-.
    exists l. split; [reflexivity |]. split; [reflexivity |].
    intros j Hjr. destruct (map_defined_lookup _ _ _ Hl) as [_ Hlk].
    rewrite (Hlk j F32.zero); [reflexivity |].
    rewrite (Hj j).
    destruct (Z.ltb_spec (Z.of_nat j) (received * channels data)); [lia |].
    destruct (Z.ltb_spec (Z.of_nat j) (fpb * channels data)); [reflexivity | lia].
Qed.

End PaddingProperties.

Lemma audioCallback_pads_with_silence_witness :
  exists r,
    audioCallback stereo_int16 (Some sample_input) 2 = Some r /\
    silence_padded
      [toNormalized (-2000); toNormalized (-1000); toNormalized 0; toNormalized 1000]
      1 2 2 (cb_outFloat r) /\
    cb_output r = OutInt16 [-1999; -999; 0; 0].
Proof.
  destruct (audioCallback_pads_with_silence stereo_int16 (Some sample_input) 2
              {| lb_rate := 44100; lb_channels := 2; lb_pitch := minus_four;
                 lb_held := [toNormalized 0; toNormalized 1000] |}
              [toNormalized (-2000); toNormalized (-1000);
               toNormalized 0; toNormalized 1000] 1)
    as (r & Hr & Hpad & _ & _ & _ & Hint).
  - lia.
  - cbn. lia.
  - reflexivity.
  - reflexivity.
  - reflexivity.
  - lia.
  - intros _. repeat constructor.
  - exists r. split; [exact Hr |]. split; [exact Hpad |].
    vm_compute in Hr. injection Hr as <-. reflexivity.
Defined.

Section OutputProperties.
Context {HANDLE : Type} `{SoundTouch HANDLE}.

(** C9.  Every invocation of the callback that returns hands the status
    [paContinue] to the driver, never [paComplete] or [paAbort]; and the
    callback does return it whatever the input buffer (null or not), the
    format, the channel count and the number [received] of frames the
    engine reports, from 0 to [framesPerBuffer]. *)
Theorem audioCallback_returns_continue (data : CallbackData HANDLE)
    (input : option RawInput) (fpb : Z) :
  (forall r, audioCallback data input fpb = Some r ->
             cb_return r = paContinue /\
             cb_return r <> paComplete /\ cb_return r <> paAbort) /\
  (forall (h2 : HANDLE) (buf : list spec_float) (received : Z),
      0 <= fpb -> 0 <= channels data -> fpb * channels data < 2 ^ 31 ->
      feed_and_drain data input fpb = Some (h2, buf, received) ->
      Z.of_nat (length buf) = fpb * channels data ->
      0 <= received <= fpb ->
      (format data = paInt16 -> Forall (fun x => sample_ok x = true) buf) ->
      exists r, audioCallback data input fpb = Some r /\
                cb_return r = paContinue).
Proof.
  split.
  - intros r Hr. rewrite (audioCallback_return_value data input fpb r Hr).
    repeat split; discriminate.
  - intros h2 buf received Hf Hc Hn Hfd Hlen Hr Hok.
    destruct (audioCallback_run data input fpb h2 buf received Hf Hc Hn Hfd Hlen Hr Hok)
      as (out & output & _ & _ & Hcb).
    eexists. split; [exact Hcb | reflexivity].
Qed.

(** C10.  In Float32 mode the output conversion is an element-wise copy:
    the driver receives the padded normalized buffer as it is, so a sample
    the engine produced outside [[-1.0, 1.0]] reaches the driver
    unchanged.  Only the Fixed16 path passes the samples through the
    clamping conversion. *)
Theorem float32_output_is_copy (data : CallbackData HANDLE)
    (input : option RawInput) (fpb : Z) :
  (forall (outFloat : list spec_float) (n : Z),
      convert_output paFloat32 outFloat n = Some (OutFloat32 outFloat)) /\
  (forall r, format data = paFloat32 ->
             audioCallback data input fpb = Some r ->
             cb_output r = OutFloat32 (cb_outFloat r)) /\
  (forall r, format data = paInt16 ->
             audioCallback data input fpb = Some r ->
             exists l, cb_output r = OutInt16 l /\
                       map_defined toFixed16 (cb_outFloat r) = Some l) /\
  (forall (h2 : HANDLE) (buf : list spec_float) (received : Z),
      format data = paFloat32 ->
      0 <= fpb -> 0 <= channels data -> fpb * channels data < 2 ^ 31 ->
      feed_and_drain data input fpb = Some (h2, buf, received) ->
      Z.of_nat (length buf) = fpb * channels data ->
      0 <= received <= fpb ->
      exists r out,
        audioCallback data input fpb = Some r /\
        cb_output r = OutFloat32 out /\
        silence_padded buf received (channels data) fpb out).
Proof.
  split; [reflexivity |]. split; [| split].
  - intros r E Hr.
    destruct (audioCallback_output data input fpb r Hr) as [Hout _].
    unfold convert_output in Hout. rewrite E in Hout. cbn in Hout.
    now injection Hout as <-.
  - intros r E Hr.
    destruct (audioCallback_output data input fpb r Hr) as [Hout Hlen].
    unfold convert_output in Hout.
    rewrite (paInt16_not_paFloat32 _ E), E, Z.eqb_refl in Hout.
    destruct (_ <? 2 ^ 32); [| discriminate].
    rewrite take_ge in Hout by lia.
    destruct (map_defined toFixed16 (cb_outFloat r)) as [l |]; [| discriminate].
    cbn in Hout. injection Hout as <-. now exists l.
  - intros h2 buf received E Hf Hc Hn Hfd Hlen Hr.
    destruct (audioCallback_padded data input fpb h2 buf received)
      as (r & Hcb & Hpad & _ & Hout); try assumption.
    { rewrite E. discriminate. }
    exists r, (cb_outFloat r). split; [exact Hcb |]. split; [| exact Hpad].
    unfold convert_output in Hout. rewrite E in Hout. cbn in Hout.
    now injection Hout as <-.
Qed.

End OutputProperties.

Lemma audioCallback_returns_continue_witness :
  (exists r, audioCallback stereo_int16 (Some sample_input) 2 = Some r /\
             cb_return r = paContinue) /\
  (exists r, audioCallback stereo_float32 None 2 = Some r /\
             cb_return r = paContinue /\
             cb_return r <> paComplete /\ cb_return r <> paAbort).
Proof.
  split.
  - apply (audioCallback_returns_continue stereo_int16 (Some sample_input) 2)
      with (h2 := {| lb_rate := 44100; lb_channels := 2; lb_pitch := minus_four;
                     lb_held := [toNormalized 0; toNormalized 1000] |})
           (buf := [toNormalized (-2000); toNormalized (-1000);
                    toNormalized 0; toNormalized 1000])
           (received := 1).
    + lia.
    + cbn. lia.
    + reflexivity.
    + reflexivity.
    + reflexivity.
    + lia.
    + intros _. repeat constructor.
  - eexists. split; [vm_compute; reflexivity |].
    apply (audioCallback_returns_continue stereo_float32 None 2).
    vm_compute. reflexivity.
Defined.

Lemma float32_output_is_copy_witness :
  exists r out,
    audioCallback stereo_float32 (Some sample_input) 2 = Some r /\
    cb_output r = OutFloat32 out /\
    silence_padded [f_0_5; f_1_5; f_minus_1_5; f_0_5] 1 2 2 out.
Proof.
  apply (float32_output_is_copy stereo_float32 (Some sample_input) 2)
    with (h2 := {| lb_rate := 44100; lb_channels := 2; lb_pitch := minus_four;
                   lb_held := [f_minus_1_5; f_0_5] |}).
  - reflexivity.
  - lia.
  - cbn. lia.
  - reflexivity.
  - reflexivity.
  - reflexivity.
  - lia.
Defined.

(** In Float32 mode the sample [1.5f] reaches the driver as it is; in Fixed16
    mode it is clamped to [32767]. *)
Example overshoot_float32 :
  convert_output paFloat32 [f_1_5; f_minus_1_5] 2 = Some (OutFloat32 [f_1_5; f_minus_1_5]).
Proof. reflexivity. Qed.

Example overshoot_int16 :
  convert_output paInt16 [f_1_5; f_minus_1_5] 2 = Some (OutInt16 [32767; -32767]).
Proof. reflexivity. Qed.
Lemma map_seq_constant {A : Type} (f : nat -> A) (z : A) (n : nat) :
  (forall i : nat, (i < n)%nat -> f i = z) -> map f (seq 0 n) = replicate n z.
Proof.
  intros Hf. apply list_eq. intros j.
  change (map f (seq 0 n)) with (f <$> seq 0 n). rewrite list_lookup_fmap.
  destruct (Nat.lt_ge_cases j n) as [Hlt | Hge].
  - rewrite lookup_seq_lt by lia. cbn. rewrite (Hf j Hlt).
    symmetry. now apply lookup_replicate_2.
  - rewrite lookup_seq_ge by lia. cbn.
    symmetry. apply lookup_ge_None. rewrite length_replicate. lia.
Qed.

Lemma convert_input_zeros (fmt : PaSampleFormat) (p : RawInput) (n : Z) :
  n < 2 ^ 32 ->
  (fmt = paFloat32 -> forall i : nat, (i < Z.to_nat n)%nat -> as_float p i = F32.zero) ->
  (fmt = paInt16 -> forall i : nat, (i < Z.to_nat n)%nat -> as_int16 p i = 0) ->
  convert_input fmt (Some p) n = Some (replicate (Z.to_nat n) F32.zero).
Proof.
  intros Hn Hfl Hi. unfold convert_input. rewrite (vector_alloc_small n Hn).
  assert (Hrep : length (replicate (Z.to_nat n) F32.zero) = Z.to_nat n)
    by apply length_replicate.
  destruct (Z.eqb_spec fmt paFloat32) as [E | _].
  - rewrite (store_range_all _ _ _ Hrep). f_equal.
    apply map_seq_constant. exact (Hfl E).
  - destruct (Z.eqb_spec fmt paInt16) as [E | _]; [| reflexivity].
    destruct (Z.ltb_spec n (2 ^ 32)) as [_ | Hge]; [| lia].
    rewrite (store_range_all _ _ _ Hrep). f_equal.
    apply map_seq_constant. intros i Hlt. now rewrite (Hi E i Hlt).
Qed.

Section NullInput.
Context {HANDLE : Type} `{SoundTouch HANDLE}.

(** C8.  With a null input pointer the callback reads nothing: in every
    format the normalized input buffer is [framesPerBuffer * channels]
    samples of value [0.0f]; that buffer is handed to the engine with
    [soundtouch_putSamples] (the source skips the call for an empty buffer
    only, and [framesPerBuffer * channels] is positive whenever the driver
    calls, see [started_stream_data]); the engine the callback leaves
    behind is the one that was fed these zeros and then drained, and the
    callback does return when that engine fills the buffer it was given;
    and the whole invocation (engine, output, status) is the one for an
    input buffer that holds zeros. *)
Theorem null_input_is_silence (data : CallbackData HANDLE) (fpb : Z) :
  0 <= fpb -> 0 <= channels data -> fpb * channels data < 2 ^ 31 ->
  let n := Z.to_nat (fpb * channels data) in
  let zeros := replicate n F32.zero in
  (forall fmt : PaSampleFormat,
      convert_input fmt None (wrap_ulong (fpb * channels data)) = Some zeros) /\
  (0 < fpb * channels data ->
   feed_and_drain data None fpb =
     Some (soundtouch_receiveSamples
             (soundtouch_putSamples (hST data) zeros fpb) zeros fpb)) /\
  (0 < fpb * channels data ->
   let fed := soundtouch_receiveSamples
                (soundtouch_putSamples (hST data) zeros fpb) zeros fpb in
   (forall r, audioCallback data None fpb = Some r ->
              cb_engine r = fst (fst fed)) /\
   (Z.of_nat (length (snd (fst fed))) = fpb * channels data ->
    0 <= snd fed <= fpb ->
    (format data = paInt16 ->
     Forall (fun x => sample_ok x = true) (snd (fst fed))) ->
    exists r, audioCallback data None fpb = Some r /\
              cb_engine r = fst (fst fed))) /\
  forall p : RawInput,
    (format data = paFloat32 ->
     forall i : nat, (i < n)%nat -> as_float p i = F32.zero) ->
    (format data = paInt16 ->
     forall i : nat, (i < n)%nat -> as_int16 p i = 0) ->
    audioCallback data None fpb = audioCallback data (Some p) fpb.
Proof.
  intros Hf Hc Hn n zeros.
  destruct (wrap_small (fpb * channels data)) as (Hw & _ & _); [nia |].
  assert (Hn32 : fpb * channels data < 2 ^ 32) by pow2_lia.
  assert (Hfed : 0 < fpb * channels data ->
                 feed_and_drain data None fpb =
                   Some (soundtouch_receiveSamples
                           (soundtouch_putSamples (hST data) zeros fpb) zeros fpb)).
  { intros Hpos. unfold feed_and_drain.
    rewrite Hw, convert_input_null, vector_alloc_small by exact Hn32.
    assert (Hfpb : 0 <= fpb < 2 ^ 32).
    { assert (1 <= channels data) by nia.
      assert (fpb <= fpb * channels data) by nia. pow2_lia. }
    rewrite (wrap_uint_small fpb Hfpb).
    fold n. fold zeros. do 2 f_equal.
    unfold feed, zeros, n.
    destruct (Z.to_nat (fpb * channels data)) as [| k] eqn:Hk; [lia | reflexivity]. }
  split; [intros fmt; rewrite Hw; now apply convert_input_null |].
  split; [exact Hfed |]. split.
  - intros Hpos fed. specialize (Hfed Hpos). fold fed in Hfed.
    destruct fed as [[h2 buf] received]. cbn [fst snd]. split.
    + intros r Hr. exact (audioCallback_engine data None fpb h2 buf received r Hfed Hr).
    + intros Hlen Hrec Hok.
      destruct (audioCallback_run data None fpb h2 buf received
                  Hf Hc Hn Hfed Hlen Hrec Hok) as (out & output & _ & _ & Hcb).
      eexists. split; [exact Hcb | reflexivity].
  - intros p Hfl Hi.
    assert (Hsame : feed_and_drain data (Some p) fpb = feed_and_drain data None fpb).
    { unfold feed_and_drain. rewrite Hw, convert_input_null by exact Hn32.
      rewrite (convert_input_zeros (format data) p (fpb * channels data));
        [reflexivity | | exact Hfl | exact Hi].
      pow2_lia. }
    unfold audioCallback. now rewrite Hsame.
Qed.

End NullInput.

Lemma null_input_is_silence_witness :
  convert_input paInt16 None (wrap_ulong (2 * 2)) = Some (replicate 4 F32.zero) /\
  feed_and_drain stereo_int16 None 2 =
    Some (soundtouch_receiveSamples
            (soundtouch_putSamples loopback0 (replicate 4 F32.zero) 2)
            (replicate 4 F32.zero) 2) /\
  (exists r, audioCallback stereo_int16 None 2 = Some r /\
             cb_engine r =
               fst (fst (soundtouch_receiveSamples
                           (soundtouch_putSamples loopback0 (replicate 4 F32.zero) 2)
                           (replicate 4 F32.zero) 2))) /\
  audioCallback stereo_int16 None 2 = audioCallback stereo_int16 (Some zero_input) 2.
Proof.
  destruct (null_input_is_silence stereo_int16 2) as (Hin & Hfed & Heng & Hsame).
  - lia.
  - cbn. lia.
  - reflexivity.
  - split; [apply Hin |]. split; [apply Hfed; cbn; lia |].
    split; [| apply Hsame; reflexivity].
    apply Heng.
    + cbn. lia.
    + reflexivity.
    + cbn. lia.
    + intros _. repeat constructor.
Defined.

Lemma pick_channels_zero (maxChannels : Z) :
  pick_channels maxChannels = 0 <-> maxChannels <= 0.
Proof.
  unfold pick_channels.
  destruct (Z.geb_spec maxChannels 2); [lia |].
  destruct (Z.gtb_spec maxChannels 0); lia.
Qed.

Lemma pick_channels_range (maxChannels : Z) :
  0 < maxChannels -> pick_channels maxChannels = 1 \/ pick_channels maxChannels = 2.
Proof.
  intros Hpos. unfold pick_channels.
  destruct (Z.geb_spec maxChannels 2); [now right |].
  destruct (Z.gtb_spec maxChannels 0); [now left | lia].
Qed.

Section MainFacts.
Context {HANDLE : Type} `{SoundTouch HANDLE}.

Lemma emit_emit (evs1 evs2 : list (Event HANDLE)) (rest : option (MainResult HANDLE)) :
  emit evs1 (emit evs2 rest) = emit (evs1 ++ evs2) rest.
Proof.
  destruct rest as [r |]; [| reflexivity]. cbn. now rewrite app_assoc.
Qed.

Lemma main_selected (host : Host HANDLE) :
  devices_selected host ->
  main host =
    emit (selection_events host)
      (negotiate host (host_cin_inputDevice host) (host_cin_outputDevice host)).
Proof.
  intros (Hinit & Hin & Hout). unfold main. rewrite Hinit. cbn [Z.eqb paNoError negb].
  destruct (Z.ltb_spec (host_Pa_GetDeviceCount host) 0) as [Hneg | _]; [lia |].
  destruct (Z.ltb_spec (host_cin_inputDevice host) 0) as [Hneg | _]; [lia |].
  destruct (Z.geb_spec (host_cin_inputDevice host) (host_Pa_GetDeviceCount host))
    as [Hge | _]; [lia |].
  destruct (Z.ltb_spec (host_cin_outputDevice host) 0) as [Hneg | _]; [lia |].
  destruct (Z.geb_spec (host_cin_outputDevice host) (host_Pa_GetDeviceCount host))
    as [Hge | _]; [lia |].
  cbn [orb]. now rewrite !emit_emit.
Qed.

Lemma main_unsupported (host : Host HANDLE) :
  devices_selected host ->
  maxInputChannels (selected_input host) <= 0 \/
  maxOutputChannels (selected_output host) <= 0 ->
  main host =
    Some {| exit_code := -1;
            trace := selection_events host ++
                     [Cerr "Selected devices do not support required I/O.";
                      Call_Pa_Terminate];
            stream_data := None |}.
Proof.
  intros Hsel Hzero. rewrite (main_selected host Hsel). unfold negotiate.
  fold (selected_input host). fold (selected_output host).
  assert (Hor : (pick_channels (maxInputChannels (selected_input host)) =? 0) ||
                (pick_channels (maxOutputChannels (selected_output host)) =? 0) = true).
  { apply orb_true_iff.
    destruct Hzero as [Hz | Hz]; [left | right];
      apply Z.eqb_eq, pick_channels_zero; exact Hz. }
  rewrite Hor. reflexivity.
Qed.

(** The whole run of [main] once both devices offer channels. *)
Lemma main_negotiated (host : Host HANDLE) (rate : Z) :
  devices_selected host ->
  0 < maxInputChannels (selected_input host) ->
  0 < maxOutputChannels (selected_output host) ->
  cast_uint (std_min (defaultSampleRate (selected_input host))
                     (defaultSampleRate (selected_output host))) = Some rate ->
  let inChannels := pick_channels (maxInputChannels (selected_input host)) in
  let req1 := request_for host rate paFloat32 in
  let req2 := request_for host rate paInt16 in
  let err1 := host_Pa_OpenStream host 0%nat req1 in
  let err2 := host_Pa_OpenStream host 1%nat req2 in
  let attempts :=
    if err1 =? paSampleFormatNotSupported
    then [Call_Pa_OpenStream req1;
          Cerr "Float32 not supported, retrying with Int16...";
          Call_Pa_OpenStream req2]
    else [Call_Pa_OpenStream req1] in
  let err := if err1 =? paSampleFormatNotSupported then err2 else err1 in
  let cbData := if err1 =? paSampleFormatNotSupported
                then open_userData req2 else open_userData req1 in
  main host =
    Some {| exit_code := if err =? paNoError then 0 else -1;
            trace := selection_events host ++ engine_events rate inChannels ++
                     attempts ++
                     (if err =? paNoError then running_events
                      else open_failure_events err);
            stream_data := if err =? paNoError then Some cbData else None |}.
Proof.
  intros Hsel Hin Hout Hrate. cbn zeta.
  rewrite (main_selected host Hsel). unfold negotiate.
  fold (selected_input host). fold (selected_output host).
  assert (Hor : (pick_channels (maxInputChannels (selected_input host)) =? 0) ||
                (pick_channels (maxOutputChannels (selected_output host)) =? 0) = false).
  { apply orb_false_iff. split; apply Z.eqb_neq; rewrite pick_channels_zero; lia. }
  rewrite Hor, Hrate. unfold open_stream.
  change (stream_request _ _ _ {| hST := ?h; format := paFloat32; channels := ?c |})
    with (request_for host rate paFloat32).
  change (stream_request _ _ _ {| hST := ?h; format := paInt16; channels := ?c |})
    with (request_for host rate paInt16).
  destruct (host_Pa_OpenStream host 0%nat (request_for host rate paFloat32)
            =? paSampleFormatNotSupported).
  - destruct (host_Pa_OpenStream host 1%nat (request_for host rate paInt16) =? paNoError);
      cbn [negb]; rewrite !emit_emit;
      cbn [emit exit_with exit_code trace stream_data];
      repeat rewrite <- app_assoc; reflexivity.
  - destruct (host_Pa_OpenStream host 0%nat (request_for host rate paFloat32) =? paNoError);
      cbn [negb]; rewrite !emit_emit;
      cbn [emit exit_with exit_code trace stream_data];
      repeat rewrite <- app_assoc; reflexivity.
Qed.

End MainFacts.
Section TraceFacts.
Context {HANDLE : Type}.

Lemma open_requests_app (t1 t2 : list (Event HANDLE)) :
  open_requests (t1 ++ t2) = open_requests t1 ++ open_requests t2.
Proof. apply omap_app. Qed.

Lemma engine_channels_app (t1 t2 : list (Event HANDLE)) :
  engine_channels (t1 ++ t2) = engine_channels t1 ++ engine_channels t2.
Proof. apply omap_app. Qed.

Lemma engine_created_app (t1 t2 : list (Event HANDLE)) :
  engine_created (t1 ++ t2) = engine_created t1 || engine_created t2.
Proof. apply existsb_app. Qed.

Lemma stream_started_app (t1 t2 : list (Event HANDLE)) :
  stream_started (t1 ++ t2) = stream_started t1 || stream_started t2.
Proof. apply existsb_app. Qed.

Lemma listing_quiet (ids : list Z) :
  open_requests (map (@Cout_device HANDLE) ids) = [] /\
  engine_channels (map (@Cout_device HANDLE) ids) = [] /\
  engine_created (map (@Cout_device HANDLE) ids) = false /\
  stream_started (map (@Cout_device HANDLE) ids) = false.
Proof. induction ids as [| i ids IH]; [now repeat split | exact IH]. Qed.

(** Nothing is created or opened up to the selection of the devices. *)
Lemma selection_quiet (host : Host HANDLE) :
  open_requests (selection_events host) = [] /\
  engine_channels (selection_events host) = [] /\
  engine_created (selection_events host) = false /\
  stream_started (selection_events host) = false.
Proof.
  unfold selection_events.
  destruct (listing_quiet (z_range (Z.to_nat (host_Pa_GetDeviceCount host)) 0))
    as (H1 & H2 & H3 & H4).
  rewrite !open_requests_app, !engine_channels_app, !engine_created_app,
    !stream_started_app, H1, H2, H3, H4.
  now repeat split.
Qed.

End TraceFacts.

Lemma SFleb_refl (a : spec_float) : is_nan a = false -> SFleb a a = true.
Proof.
  unfold SFleb. destruct a as [s | s | | s m e]; try destruct s; try reflexivity;
    try discriminate; intros _; cbn [SFcompare];
    rewrite Z.compare_refl, Pos.compare_cont_refl; reflexivity.
Qed.

(** [std::min] of two numbers is their minimum. *)
Lemma std_min_is_min (a b : spec_float) :
  is_nan a = false -> is_nan b = false ->
  F64.leb (std_min a b) a = true /\ F64.leb (std_min a b) b = true /\
  (std_min a b = a \/ std_min a b = b).
Proof.
  intros Ha Hb. unfold std_min, F64.leb, F64.ltb.
  destruct (SFltb b a) eqn:Hlt.
  - split; [| split; [now apply SFleb_refl | now right]].
    unfold SFltb in Hlt. unfold SFleb.
    now destruct (SFcompare b a) as [[| |] |].
  - split; [now apply SFleb_refl |]. split; [| now left].
    now apply leb_of_not_ltb.
Qed.

Section NegotiationProperties.
Context {HANDLE : Type} `{SoundTouch HANDLE}.

(** C7.  When the selected input device has no input channel or the
    selected output device has no output channel, [main] reports that the
    devices do not support the required I/O and exits with [-1] right
    after the selection: no engine instance is created and no stream is
    opened or started on this path. *)
Theorem no_channels_fails_before_engine (host : Host HANDLE) :
  devices_selected host ->
  maxInputChannels (selected_input host) <= 0 \/
  maxOutputChannels (selected_output host) <= 0 ->
  exists r,
    main host = Some r /\
    exit_code r = -1 /\
    stream_data r = None /\
    trace r = selection_events host ++
              [Cerr "Selected devices do not support required I/O.";
               Call_Pa_Terminate] /\
    engine_created (trace r) = false /\
    open_requests (trace r) = [] /\
    stream_started (trace r) = false.
Proof.
  intros Hsel Hzero. eexists. split; [now apply main_unsupported |].
  cbn [exit_code stream_data trace].
  destruct (selection_quiet host) as (H1 & _ & H3 & H4).
  rewrite open_requests_app, engine_created_app, stream_started_app, H1, H3, H4.
  now repeat split.
Qed.

(** C6.  For every pair of selected devices that offer channels, each
    request to open the stream asks for the sample rate
    [std::min(inInfo->defaultSampleRate, outInfo->defaultSampleRate)],
    which is the smaller of the two rates; for 48000 and 44100 it is
    44100. *)
Theorem negotiated_sample_rate (host : Host HANDLE) (rate : Z) :
  devices_selected host ->
  0 < maxInputChannels (selected_input host) ->
  0 < maxOutputChannels (selected_output host) ->
  let a := defaultSampleRate (selected_input host) in
  let b := defaultSampleRate (selected_output host) in
  cast_uint (std_min a b) = Some rate ->
  exists r,
    main host = Some r /\
    open_requests (trace r) <> [] /\
    Forall (fun req => open_sampleRate req = std_min a b) (open_requests (trace r)) /\
    (is_nan a = false -> is_nan b = false ->
     F64.leb (std_min a b) a = true /\ F64.leb (std_min a b) b = true /\
     (std_min a b = a \/ std_min a b = b)) /\
    std_min (F64.of_int 48000) (F64.of_int 44100) = F64.of_int 44100.
Proof.
  intros Hsel Hin Hout a b Hrate.
  eexists. split; [now apply (main_negotiated host rate) |].
  cbn [trace].
  destruct (selection_quiet host) as (H1 & _ & _ & _).
  rewrite !open_requests_app, H1. cbn [app].
  split; [| split; [| split; [apply std_min_is_min | reflexivity]]].
  - destruct (_ =? paSampleFormatNotSupported); discriminate.
  - destruct (_ =? paSampleFormatNotSupported);
      destruct (_ =? paNoError); repeat constructor.
Qed.

End NegotiationProperties.
Lemma no_channels_fails_before_engine_witness :
  exists r,
    main no_output_host = Some r /\
    exit_code r = -1 /\
    stream_data r = None /\
    trace r = selection_events no_output_host ++
              [Cerr "Selected devices do not support required I/O.";
               Call_Pa_Terminate] /\
    engine_created (trace r) = false /\
    open_requests (trace r) = [] /\
    stream_started (trace r) = false.
Proof.
  apply (no_channels_fails_before_engine no_output_host).
  - repeat split; cbn; lia.
  - right. cbn. lia.
Defined.

Lemma negotiated_sample_rate_witness :
  std_min (F64.of_int 48000) (F64.of_int 44100) = F64.of_int 44100 /\
  exists r,
    main stereo_to_mono_host = Some r /\
    open_requests (trace r) <> [] /\
    Forall (fun req => open_sampleRate req = F64.of_int 44100)
           (open_requests (trace r)).
Proof.
  split; [reflexivity |].
  destruct (negotiated_sample_rate stereo_to_mono_host 44100)
    as (r & Hr & Hne & Hall & _).
  - repeat split; cbn; lia.
  - cbn. lia.
  - cbn. lia.
  - reflexivity.
  - exists r. split; [exact Hr |]. split; [exact Hne | exact Hall].
Defined.

Section FallbackProperties.
Context {HANDLE : Type} `{SoundTouch HANDLE}.

(** C4.  [main] first asks for a Float32 stream.  It asks a second time,
    for Int16, if and only if the first answer is
    [paSampleFormatNotSupported], and never a third time.  When the retry
    succeeds the stream is started with callback data whose format is
    [paInt16]; when the first attempt fails for another reason, or the
    retry fails, the process gives up with [-1] and starts no stream. *)
Theorem open_falls_back_once (host : Host HANDLE) (rate : Z) :
  devices_selected host ->
  0 < maxInputChannels (selected_input host) ->
  0 < maxOutputChannels (selected_output host) ->
  cast_uint (std_min (defaultSampleRate (selected_input host))
                     (defaultSampleRate (selected_output host))) = Some rate ->
  let req1 := request_for host rate paFloat32 in
  let req2 := request_for host rate paInt16 in
  let err1 := host_Pa_OpenStream host 0%nat req1 in
  let err2 := host_Pa_OpenStream host 1%nat req2 in
  (sampleFormat (open_input req1) = paFloat32 /\
   sampleFormat (open_output req1) = paFloat32 /\
   format (open_userData req1) = paFloat32) /\
  (sampleFormat (open_input req2) = paInt16 /\
   sampleFormat (open_output req2) = paInt16 /\
   format (open_userData req2) = paInt16) /\
  exists r,
    main host = Some r /\
    (err1 = paSampleFormatNotSupported -> open_requests (trace r) = [req1; req2]) /\
    (err1 <> paSampleFormatNotSupported -> open_requests (trace r) = [req1]) /\
    (err1 = paSampleFormatNotSupported -> err2 = paNoError ->
     exit_code r = 0 /\ stream_started (trace r) = true /\
     stream_data r = Some (open_userData req2)) /\
    (err1 = paSampleFormatNotSupported -> err2 <> paNoError ->
     exit_code r = -1 /\ stream_started (trace r) = false /\
     stream_data r = None) /\
    (err1 = paNoError ->
     exit_code r = 0 /\ stream_started (trace r) = true /\
     stream_data r = Some (open_userData req1)) /\
    (err1 <> paSampleFormatNotSupported -> err1 <> paNoError ->
     exit_code r = -1 /\ stream_started (trace r) = false /\
     stream_data r = None).
Proof.
  intros Hsel Hin Hout Hrate req1 req2 err1 err2.
  split; [now repeat split |]. split; [now repeat split |].
  eexists. split; [now apply (main_negotiated host rate) |].
  cbn [trace exit_code stream_data].
  fold req1 req2. fold err1 err2.
  destruct (selection_quiet host) as (H1 & _ & _ & H4).
  rewrite !open_requests_app, !stream_started_app, H1, H4. cbn [app orb].
  destruct (Z.eqb_spec err1 paSampleFormatNotSupported) as [E1 | E1].
  - destruct (Z.eqb_spec err2 paNoError) as [E2 | E2];
      repeat split; intros; try reflexivity; try contradiction;
      try (exfalso; rewrite E1 in *; discriminate).
  - destruct (Z.eqb_spec err1 paNoError) as [E2 | E2];
      repeat split; intros; try reflexivity; try contradiction.
Qed.

End FallbackProperties.

Lemma open_falls_back_once_witness :
  exists r,
    main fallback_host = Some r /\
    open_requests (trace r) =
      [request_for fallback_host 44100 paFloat32;
       request_for fallback_host 44100 paInt16] /\
    exit_code r = 0 /\ stream_started (trace r) = true /\
    option_map format (stream_data r) = Some paInt16.
Proof.
  destruct (open_falls_back_once fallback_host 44100)
    as (_ & _ & r & Hr & Hreq & _ & Hok & _).
  - repeat split; cbn; lia.
  - cbn. lia.
  - cbn. lia.
  - reflexivity.
  - exists r. split; [exact Hr |].
    split; [apply Hreq; reflexivity |].
    destruct Hok as (Hc & Hs & Hd); [reflexivity | reflexivity |].
    split; [exact Hc |]. split; [exact Hs |]. now rewrite Hd.
Defined.

(** C1.  With a stereo input device and a mono output device the engine and
    the callback are set to the input side's two channels, not to
    [min(2, 1) = 1], and the two streams are opened with different channel
    counts, 2 for the input and 1 for the output. *)
Theorem channel_counts_stereo_to_mono :
  exists r req,
    main stereo_to_mono_host = Some r /\
    open_requests (trace r) = [req] /\
    engine_channels (trace r) = [2] /\
    option_map channels (stream_data r) = Some 2 /\
    channels (open_userData req) = 2 /\
    channelCount (open_input req) = 2 /\
    channelCount (open_output req) = 1 /\
    Z.min (pick_channels 2) (pick_channels 1) = 1.
Proof.
  eexists. eexists. split; [vm_compute; reflexivity |].
  cbn [trace]. split; [reflexivity |]. now repeat split.
Qed.

Section Channels.
Context {HANDLE : Type} `{SoundTouch HANDLE}.

(** The channel counts [main] uses for every pair of devices that offer
    channels: the input side's count for the engine, the callback and the
    input stream, the output side's count for the output stream. *)
Lemma negotiated_channel_counts (host : Host HANDLE) (rate : Z) :
  devices_selected host ->
  0 < maxInputChannels (selected_input host) ->
  0 < maxOutputChannels (selected_output host) ->
  cast_uint (std_min (defaultSampleRate (selected_input host))
                     (defaultSampleRate (selected_output host))) = Some rate ->
  let inChannels := pick_channels (maxInputChannels (selected_input host)) in
  let outChannels := pick_channels (maxOutputChannels (selected_output host)) in
  exists r,
    main host = Some r /\
    engine_channels (trace r) = [inChannels] /\
    Forall (fun req => channelCount (open_input req) = inChannels /\
                       channelCount (open_output req) = outChannels /\
                       channels (open_userData req) = inChannels)
           (open_requests (trace r)) /\
    (inChannels = outChannels ->
     Forall (fun req => channelCount (open_input req) = Z.min inChannels outChannels /\
                        channelCount (open_output req) = Z.min inChannels outChannels /\
                        channels (open_userData req) = Z.min inChannels outChannels)
            (open_requests (trace r))).
Proof.
  intros Hsel Hin Hout Hrate inChannels outChannels.
  eexists. split; [now apply (main_negotiated host rate) |].
  cbn [trace].
  destruct (selection_quiet host) as (H1 & H2 & _ & _).
  rewrite !open_requests_app, !engine_channels_app, H1, H2. cbn [app].
  fold inChannels.
  split; [| split].
  - destruct (_ =? paSampleFormatNotSupported); destruct (_ =? paNoError); reflexivity.
  - destruct (_ =? paSampleFormatNotSupported); destruct (_ =? paNoError);
      repeat constructor.
  - intros E. rewrite <- E, Z.min_id.
    destruct (_ =? paSampleFormatNotSupported); destruct (_ =? paNoError);
      cbn; repeat constructor; cbn; fold inChannels; fold outChannels; congruence.
Qed.

End Channels.

Section Started.
Context {HANDLE : Type} `{SoundTouch HANDLE}.

(** A stream that [main] has started runs the callback on 1 or 2 channels,
    in one of the two formats, with buffers of [FRAMES_PER_BUFFER] frames:
    the callback's buffers are never empty. *)
Lemma started_stream_data (host : Host HANDLE) (r : MainResult HANDLE)
    (cb : CallbackData HANDLE) :
  main host = Some r -> stream_data r = Some cb ->
  (channels cb = 1 \/ channels cb = 2) /\
  (format cb = paFloat32 \/ format cb = paInt16) /\
  Forall (fun req => open_framesPerBuffer req = FRAMES_PER_BUFFER)
         (open_requests (trace r)) /\
  0 < FRAMES_PER_BUFFER * channels cb < 2 ^ 31.
Proof.
  intros Hmain Hcb.
  assert (Hall : (channels cb = 1 \/ channels cb = 2) /\
                 (format cb = paFloat32 \/ format cb = paInt16) /\
                 Forall (fun req => open_framesPerBuffer req = FRAMES_PER_BUFFER)
                        (open_requests (trace r))).
  { revert Hmain. unfold main.
    destruct (negb (host_Pa_Initialize host =? paNoError)).
    { cbn. intros E. injection E as <-. discriminate. }
    destruct (host_Pa_GetDeviceCount host <? 0).
    { cbn. intros E. injection E as <-. discriminate. }
    destruct (_ || _).
    { cbn. intros E. injection E as <-. discriminate. }
    rewrite !emit_emit. unfold negotiate.
    destruct (Z.eqb_spec (pick_channels (maxInputChannels
                (host_Pa_GetDeviceInfo host (host_cin_inputDevice host)))) 0)
      as [Ez | Hnz].
    { cbn. intros E. injection E as <-. discriminate. }
    cbn [orb].
    destruct (_ =? 0).
    { cbn. intros E. injection E as <-. discriminate. }
    destruct (cast_uint _) as [rate |]; [| discriminate].
    rewrite emit_emit. unfold open_stream.
    assert (Hch : forall c, c = pick_channels (maxInputChannels
                (host_Pa_GetDeviceInfo host (host_cin_inputDevice host))) ->
                c = 1 \/ c = 2).
    { intros c ->. apply pick_channels_range.
      destruct (Z.lt_ge_cases 0 (maxInputChannels
          (host_Pa_GetDeviceInfo host (host_cin_inputDevice host)))) as [Hp | Hn];
        [exact Hp |].
      exfalso. apply Hnz. apply pick_channels_zero. lia. }
    destruct (listing_quiet (HANDLE := HANDLE)
                (z_range (Z.to_nat (host_Pa_GetDeviceCount host)) 0))
      as (Hq & _ & _ & _).
    destruct (_ =? paSampleFormatNotSupported);
      destruct (negb _); cbn [emit exit_with exit_code trace stream_data];
      intros E; injection E as <-; cbn [stream_data] in Hcb; try discriminate;
      injection Hcb as <-; cbn [channels format trace];
      (split; [now apply Hch |]); (split; [auto |]).
    all: unfold open_requests in *; cbn [omap list_omap];
      rewrite !omap_app, Hq; cbn; repeat constructor. }
  destruct Hall as (Hc & Hf & Hr). repeat split; try assumption.
  - destruct Hc as [-> | ->]; reflexivity.
  - destruct Hc as [-> | ->]; reflexivity.
Qed.

End Started.

(* ================================================================= *)
(** * Further properties of [main] and [audioCallback] *)

Section RunShapes.
Context {HANDLE : Type} `{SoundTouch HANDLE}.

Lemma main_negotiated_run (host : Host HANDLE) (rate : Z) :
  devices_selected host ->
  0 < maxInputChannels (selected_input host) ->
  0 < maxOutputChannels (selected_output host) ->
  cast_uint (std_min (defaultSampleRate (selected_input host))
                     (defaultSampleRate (selected_output host))) = Some rate ->
  main host = Some (negotiated_run host rate).
Proof. exact (main_negotiated host rate). Qed.

(** Every run of [main] has one of the five shapes. *)
Lemma main_shape (host : Host HANDLE) (r : MainResult HANDLE) :
  main host = Some r -> RunShape host r.
Proof.
  intros Hmain.
  destruct (Z.eq_dec (host_Pa_Initialize host) paNoError) as [Hinit | Hinit].
  2: { unfold main in Hmain.
       apply Z.eqb_neq in Hinit as Hb. rewrite Hb in Hmain. cbn in Hmain.
       injection Hmain as <-. now apply Run_init_failed. }
  destruct (Z.lt_ge_cases (host_Pa_GetDeviceCount host) 0) as [Hneg | Hcount].
  { unfold main in Hmain. rewrite Hinit in Hmain.
    apply Z.ltb_lt in Hneg as Hb. rewrite Hb in Hmain. cbn in Hmain.
    injection Hmain as <-. now apply Run_enumeration_failed. }
  destruct (Z.lt_ge_cases (host_cin_inputDevice host) 0) as [Hi1 | Hi1];
    [| destruct (Z.lt_ge_cases (host_cin_inputDevice host) (host_Pa_GetDeviceCount host))
         as [Hi2 | Hi2];
       [destruct (Z.lt_ge_cases (host_cin_outputDevice host) 0) as [Ho1 | Ho1];
        [| destruct (Z.lt_ge_cases (host_cin_outputDevice host)
                       (host_Pa_GetDeviceCount host)) as [Ho2 | Ho2]] |]].
  3: { assert (Hsel : devices_selected host) by (repeat split; assumption || lia).
       destruct (Z.lt_ge_cases 0 (maxInputChannels (selected_input host))) as [Hin | Hin].
       2: { rewrite main_unsupported in Hmain by (auto; left; lia).
            injection Hmain as <-. apply Run_unsupported; [exact Hsel | left; lia]. }
       destruct (Z.lt_ge_cases 0 (maxOutputChannels (selected_output host))) as [Hout | Hout].
       2: { rewrite main_unsupported in Hmain by (auto; right; lia).
            injection Hmain as <-. apply Run_unsupported; [exact Hsel | right; lia]. }
       destruct (cast_uint (std_min (defaultSampleRate (selected_input host))
                                    (defaultSampleRate (selected_output host))))
         as [rate |] eqn:Hrate.
       - rewrite (main_negotiated_run host rate Hsel Hin Hout Hrate) in Hmain.
         injection Hmain as <-. now apply Run_negotiated.
       - exfalso. rewrite (main_selected host Hsel) in Hmain. unfold negotiate in Hmain.
         fold (selected_input host) in Hmain. fold (selected_output host) in Hmain.
         assert (Hor : (pick_channels (maxInputChannels (selected_input host)) =? 0) ||
                       (pick_channels (maxOutputChannels (selected_output host)) =? 0)
                       = false).
         { apply orb_false_iff. split; apply Z.eqb_neq; rewrite pick_channels_zero; lia. }
         rewrite Hor, Hrate in Hmain. discriminate. }
  all: unfold main in Hmain; rewrite Hinit in Hmain;
    apply Z.ltb_ge in Hcount as Hb; rewrite Hb in Hmain; cbn [Z.eqb paNoError negb] in Hmain;
    match type of Hmain with
    | context [if ?c then _ else _] =>
        assert (Hc : c = true)
          by (repeat rewrite orb_true_iff;
              rewrite ?Z.ltb_lt, ?Z.geb_le; lia)
    end;
    rewrite Hc in Hmain; rewrite !emit_emit in Hmain; cbn in Hmain;
    injection Hmain as <-;
    apply Run_invalid_id; [exact Hinit | lia | lia].
Qed.
End RunShapes.

Section Counting.
Context {HANDLE : Type}.

Lemma count_calls_app (c : Call) (t1 t2 : list (Event HANDLE)) :
  count_calls c (t1 ++ t2) = (count_calls c t1 + count_calls c t2)%nat.
Proof.
  induction t1 as [| ev t1 IH]; [reflexivity |]. cbn [app count_calls].
  destruct (call_of ev) as [c' |]; [| exact IH].
  destruct (Call_eqb c c'); [now rewrite IH | exact IH].
Qed.

Lemma listed_devices_app (t1 t2 : list (Event HANDLE)) :
  listed_devices (t1 ++ t2) = listed_devices t1 ++ listed_devices t2.
Proof. apply omap_app. Qed.

Lemma listing_calls (c : Call) (ids : list Z) :
  count_calls c (map (@Cout_device HANDLE) ids) = O /\
  listed_devices (map (@Cout_device HANDLE) ids) = ids.
Proof.
  induction ids as [| i ids [IH1 IH2]]; [now split |].
  split; [exact IH1 |]. cbn. f_equal. exact IH2.
Qed.

Lemma selection_calls (c : Call) (host : Host HANDLE) :
  count_calls c (selection_events host) = (if Call_eqb c C_Initialize then 1 else 0)%nat /\
  listed_devices (selection_events host)
    = z_range (Z.to_nat (host_Pa_GetDeviceCount host)) 0.
Proof.
  unfold selection_events.
  destruct (listing_calls c (z_range (Z.to_nat (host_Pa_GetDeviceCount host)) 0))
    as [H1 H2].
  rewrite !count_calls_app, !listed_devices_app, H1, H2. split.
  - now destruct c.
  - cbn. now rewrite app_nil_r.
Qed.
End Counting.

Lemma z_range_length (n : nat) (lo : Z) : length (z_range n lo) = n.
Proof. revert lo. induction n as [| k IH]; intros lo; cbn; [reflexivity | now rewrite IH]. Qed.

Lemma pick_channels_bounds (maxChannels : Z) :
  0 <= pick_channels maxChannels <= 2 /\
  pick_channels maxChannels <= Z.max 0 maxChannels.
Proof.
  unfold pick_channels.
  destruct (Z.geb_spec maxChannels 2); [lia |].
  destruct (Z.gtb_spec maxChannels 0); lia.
Qed.

Section RunProperties.
Context {HANDLE : Type} `{SoundTouch HANDLE}.

(** X1.  [main] returns 0 or -1, and it returns 0 exactly when it has
    started the stream, which is exactly when callback data is in use. *)
Theorem main_exit_status (host : Host HANDLE) (r : MainResult HANDLE) :
  main host = Some r ->
  (exit_code r = 0 \/ exit_code r = -1) /\
  (exit_code r = 0 <-> stream_started (trace r) = true) /\
  (exit_code r = 0 <-> stream_data r <> None).
Proof.
  intros Hmain. destruct (selection_quiet host) as (_ & _ & _ & Hs).
  destruct (main_shape host r Hmain);
    try (cbn [exit_code trace stream_data];
         rewrite ?stream_started_app, ?Hs; cbn;
         repeat split; auto; intros; congruence || lia).
  negotiated_cases; rewrite !stream_started_app, Hs; cbn;
    repeat split; auto; intros; congruence || lia.
Qed.

(** X2.  Every run releases what it acquired: [Pa_Terminate] is called once
    if [Pa_Initialize] succeeded and not at all otherwise, an engine
    instance is created at most once and destroyed as often as created, the
    stream is opened at most twice, started at most once, and stopped and
    closed as often as started. *)
Theorem main_releases_what_it_acquires (host : Host HANDLE) (r : MainResult HANDLE) :
  main host = Some r ->
  count_calls C_Initialize (trace r) = 1%nat /\
  count_calls C_Terminate (trace r)
    = (if host_Pa_Initialize host =? paNoError then 1%nat else 0%nat) /\
  count_calls C_destroyInstance (trace r) = count_calls C_createInstance (trace r) /\
  (count_calls C_createInstance (trace r) <= 1)%nat /\
  (count_calls C_OpenStream (trace r) <= 2)%nat /\
  (count_calls C_StartStream (trace r) <= 1)%nat /\
  count_calls C_StopStream (trace r) = count_calls C_StartStream (trace r) /\
  count_calls C_CloseStream (trace r) = count_calls C_StartStream (trace r).
Proof.
  intros Hmain.
  pose proof (fun c => proj1 (selection_calls c host)) as Hsel.
  destruct (main_shape host r Hmain) as [Hinit | Hinit Hneg | Hinit Hc Hbad | Hs Hz | rate Hs];
    try destruct Hs as (Hinit & _);
    (destruct (Z.eqb_spec (host_Pa_Initialize host) paNoError) as [E | E];
     [try contradiction | try (exfalso; apply E; exact Hinit)]).
  5: negotiated_cases.
  all: cbn [trace]; rewrite ?count_calls_app, ?Hsel; cbn; repeat split; lia.
Qed.

(** X3.  Release order.  A run in which PortAudio was initialised ends with
    [Pa_Terminate]; if an engine instance was created, it is destroyed just
    before that; and a started stream is stopped, then closed, before the
    engine is destroyed. *)
Theorem main_release_order (host : Host HANDLE) (r : MainResult HANDLE) :
  main host = Some r ->
  (host_Pa_Initialize host = paNoError ->
   exists pre, trace r = pre ++ [Call_Pa_Terminate]) /\
  (engine_created (trace r) = true ->
   exists pre, trace r = pre ++ [Call_destroyInstance; Call_Pa_Terminate]) /\
  (stream_started (trace r) = true ->
   exists pre, trace r = pre ++ [Call_Pa_StartStream; Cout "Press ENTER to stop."; Cin;
                                 Call_Pa_StopStream; Call_Pa_CloseStream;
                                 Call_destroyInstance; Call_Pa_Terminate]).
Proof.
  intros Hmain. destruct (selection_quiet host) as (_ & _ & Hc & Hs).
  destruct (main_shape host r Hmain) as [Hinit | Hinit Hneg | Hinit Hcnt Hbad | Hsel Hz | rate Hsel].
  - split; [intros E; contradiction |]. split; discriminate.
  - split; [intros _; now exists [Call_Pa_Initialize; Call_Pa_GetDeviceCount; Cerr "ERROR: ";
                                   Cerr_ErrorText (host_Pa_GetDeviceCount host)] |].
    split; discriminate.
  - cbn [trace]. rewrite engine_created_app, stream_started_app, Hc, Hs.
    split; [intros _; exists (selection_events host ++ [Cerr "Invalid device ID."]);
            now rewrite <- app_assoc |].
    split; discriminate.
  - cbn [trace]. rewrite engine_created_app, stream_started_app, Hc, Hs.
    split; [intros _; eexists (selection_events host ++ [_]);
            now rewrite <- app_assoc |].
    split; discriminate.
  - unfold negotiated_run. cbn [trace].
    set (attempts := if _ =? paSampleFormatNotSupported then _ else _).
    assert (Hatt : stream_started attempts = false).
    { unfold attempts. now destruct (_ =? paSampleFormatNotSupported). }
    rewrite !stream_started_app, Hs, Hatt. cbn [orb].
    set (pre := selection_events host ++
              engine_events rate (pick_channels (maxInputChannels (selected_input host))) ++
              attempts).
    destruct (_ =? paNoError).
    + split; [| split]; intros _.
      * exists (pre ++ [Cout "Stream opened successfully. Starting..."; Call_Pa_StartStream;
                        Cout "Press ENTER to stop."; Cin;
                        Call_Pa_StopStream; Call_Pa_CloseStream; Call_destroyInstance]).
        unfold pre, running_events. now rewrite <- !app_assoc.
      * exists (pre ++ [Cout "Stream opened successfully. Starting..."; Call_Pa_StartStream;
                        Cout "Press ENTER to stop."; Cin;
                        Call_Pa_StopStream; Call_Pa_CloseStream]).
        unfold pre, running_events. now rewrite <- !app_assoc.
      * exists (pre ++ [Cout "Stream opened successfully. Starting..."]).
        unfold pre, running_events. now rewrite <- !app_assoc.
    + split; [| split].
      * intros _. eexists (pre ++ [_; _; _]).
        unfold pre, open_failure_events. now rewrite <- !app_assoc.
      * intros _. eexists (pre ++ [_; _]).
        unfold pre, open_failure_events. now rewrite <- !app_assoc.
      * discriminate.
Qed.
End RunProperties.

Lemma main_exit_status_witness :
  exists r, main fallback_host = Some r /\
            (exit_code r = 0 <-> stream_started (trace r) = true).
Proof.
  eexists. split; [vm_compute; reflexivity |].
  apply (main_exit_status fallback_host). vm_compute. reflexivity.
Defined.

Lemma main_releases_what_it_acquires_witness :
  exists r, main fallback_host = Some r /\
            count_calls C_OpenStream (trace r) = 2%nat /\
            count_calls C_destroyInstance (trace r) = count_calls C_createInstance (trace r).
Proof.
  eexists. split; [vm_compute; reflexivity |]. split; [reflexivity |].
  apply (main_releases_what_it_acquires fallback_host). vm_compute. reflexivity.
Defined.

Lemma main_release_order_witness :
  exists r pre,
    main fallback_host = Some r /\
    trace r = pre ++ [Call_Pa_StartStream; Cout "Press ENTER to stop."; Cin;
                      Call_Pa_StopStream; Call_Pa_CloseStream;
                      Call_destroyInstance; Call_Pa_Terminate].
Proof.
  destruct (main_release_order fallback_host
              (negotiated_run fallback_host 44100)) as (_ & _ & Hstop).
  - vm_compute. reflexivity.
  - destruct Hstop as [pre Hpre]; [reflexivity |].
    exists (negotiated_run fallback_host 44100), pre.
    split; [vm_compute; reflexivity | exact Hpre].
Defined.

Section ErrorPaths.
Context {HANDLE : Type} `{SoundTouch HANDLE}.

(** X4.  An engine instance is created, and a stream is asked for, only
    once the negotiation has succeeded: in exactly those runs in which
    PortAudio started, both ids are valid, the input device has an input
    channel and the output device an output channel. *)
Theorem engine_only_after_negotiation (host : Host HANDLE) (r : MainResult HANDLE) :
  main host = Some r ->
  let negotiated := devices_selected host /\
                    0 < maxInputChannels (selected_input host) /\
                    0 < maxOutputChannels (selected_output host) in
  (engine_created (trace r) = true <-> negotiated) /\
  (open_requests (trace r) <> [] <-> negotiated).
Proof.
  intros Hmain negotiated. unfold negotiated.
  destruct (selection_quiet host) as (Ho & _ & Hc & _).
  destruct (main_shape host r Hmain) as [Hi | Hi Hneg | Hi Hcnt Hbad | Hs Hz | rate Hs Hin Hout].
  - cbn. split; (split; [intros E; congruence | intros [[E _] _]; contradiction]).
  - cbn. split; (split; [intros E; congruence |]);
      intros [(_ & Hin & _) _]; lia.
  - cbn [trace]. rewrite engine_created_app, open_requests_app, Ho, Hc. cbn.
    split; (split; [intros E; congruence |]); intros [(_ & Hin & Hout) _]; tauto.
  - cbn [trace]. rewrite engine_created_app, open_requests_app, Ho, Hc. cbn.
    split; (split; [intros E; congruence |]); intros (_ & Hin & Hout); lia.
  - unfold negotiated_run. cbn [trace].
    rewrite !engine_created_app, !open_requests_app, Ho, Hc. cbn.
    split; (split; [intros _; split; [exact Hs | split; assumption] |]);
      intros _; [reflexivity |].
    destruct (_ =? paSampleFormatNotSupported); discriminate.
Qed.

(** X5.  If either id typed in is negative or not below the device count,
    [main] reports an invalid device id, shuts PortAudio down and returns
    [-1]; no engine instance is created and no stream is opened. *)
Theorem invalid_device_id_rejected (host : Host HANDLE) :
  host_Pa_Initialize host = paNoError ->
  0 <= host_Pa_GetDeviceCount host ->
  ~ (0 <= host_cin_inputDevice host < host_Pa_GetDeviceCount host /\
     0 <= host_cin_outputDevice host < host_Pa_GetDeviceCount host) ->
  exists r,
    main host = Some r /\
    exit_code r = -1 /\
    trace r = selection_events host ++ [Cerr "Invalid device ID."; Call_Pa_Terminate] /\
    engine_created (trace r) = false /\
    open_requests (trace r) = [] /\
    stream_data r = None.
Proof.
  intros Hinit Hcount Hbad.
  assert (Hm : main host =
               Some {| exit_code := -1;
                       trace := selection_events host ++
                                [Cerr "Invalid device ID."; Call_Pa_Terminate];
                       stream_data := None |}).
  { unfold main. rewrite Hinit. apply Z.ltb_ge in Hcount as Hb. rewrite Hb.
    cbn [Z.eqb paNoError negb].
    match goal with
    | |- context [if ?c then _ else _] =>
        assert (Hc : c = true)
          by (repeat rewrite orb_true_iff; rewrite ?Z.ltb_lt, ?Z.geb_le; lia)
    end.
    rewrite Hc, !emit_emit. cbn [emit exit_with exit_code trace stream_data].
    unfold selection_events. now repeat rewrite <- app_assoc. }
  eexists. split; [exact Hm |]. cbn [exit_code trace stream_data].
  destruct (selection_quiet host) as (H1 & _ & H3 & _).
  rewrite open_requests_app, engine_created_app, H1, H3. now repeat split.
Qed.

(** X6.  When the enumeration succeeds, the run lists every device once,
    in the order of the ids [0 .. numDevices - 1], whatever happens next;
    and with no device at all every selection is rejected. *)
Theorem devices_listed_in_order (host : Host HANDLE) (r : MainResult HANDLE) :
  main host = Some r ->
  host_Pa_Initialize host = paNoError ->
  0 <= host_Pa_GetDeviceCount host ->
  listed_devices (trace r) = z_range (Z.to_nat (host_Pa_GetDeviceCount host)) 0 /\
  Z.of_nat (length (listed_devices (trace r))) = host_Pa_GetDeviceCount host /\
  (host_Pa_GetDeviceCount host = 0 ->
   exit_code r = -1 /\
   trace r = selection_events host ++ [Cerr "Invalid device ID."; Call_Pa_Terminate]).
Proof.
  intros Hmain Hinit Hcount.
  pose proof (proj2 (selection_calls (HANDLE := HANDLE) C_Initialize host)) as Hsel.
  assert (Hlist : listed_devices (trace r)
                  = z_range (Z.to_nat (host_Pa_GetDeviceCount host)) 0).
  { destruct (main_shape host r Hmain) as [Hi | Hi Hneg | Hi Hc Hbad | Hs Hz | rate Hs];
      [contradiction | lia | | |].
    - cbn [trace]. rewrite listed_devices_app, Hsel. cbn. now rewrite app_nil_r.
    - cbn [trace]. rewrite listed_devices_app, Hsel. cbn. now rewrite app_nil_r.
    - unfold negotiated_run. cbn [trace]. rewrite !listed_devices_app, Hsel.
      destruct (_ =? paSampleFormatNotSupported); destruct (_ =? paNoError);
        cbn; now rewrite app_nil_r. }
  split; [exact Hlist |]. split; [rewrite Hlist, z_range_length; lia |].
  intros Hzero.
  destruct (main_shape host r Hmain) as [Hi | Hi Hneg | Hi Hc Hbad | Hs Hz | rate Hs];
    [contradiction | lia | now split | |];
    destruct Hs as (_ & Hin & _); lia.
Qed.
End ErrorPaths.

Lemma engine_only_after_negotiation_witness :
  exists r, main no_output_host = Some r /\
            (engine_created (trace r) = true <->
             devices_selected no_output_host /\
             0 < maxInputChannels (selected_input no_output_host) /\
             0 < maxOutputChannels (selected_output no_output_host)).
Proof.
  eexists. split; [vm_compute; reflexivity |].
  apply (engine_only_after_negotiation no_output_host). vm_compute. reflexivity.
Defined.

Lemma invalid_device_id_rejected_witness :
  exists r,
    main invalid_id_host = Some r /\
    exit_code r = -1 /\
    trace r = selection_events invalid_id_host ++
              [Cerr "Invalid device ID."; Call_Pa_Terminate] /\
    engine_created (trace r) = false /\
    open_requests (trace r) = [] /\
    stream_data r = None.
Proof.
  apply (invalid_device_id_rejected invalid_id_host).
  - reflexivity.
  - cbn. lia.
  - cbn. lia.
Defined.

Lemma devices_listed_in_order_witness :
  exists r, main no_device_host = Some r /\
            listed_devices (trace r) = [] /\ exit_code r = -1.
Proof.
  eexists. split; [vm_compute; reflexivity |].
  destruct (devices_listed_in_order no_device_host
              (Build_MainResult Loopback (-1)
                 (selection_events no_device_host ++
                  [Cerr "Invalid device ID."; Call_Pa_Terminate]) None))
    as (Hl & _ & Hz).
  - vm_compute. reflexivity.
  - reflexivity.
  - cbn. lia.
  - split; [exact Hl | apply Hz; reflexivity].
Defined.

Section Requests.
Context {HANDLE : Type} `{SoundTouch HANDLE}.

Lemma request_for_ok (host : Host HANDLE) (rate : Z) (fmt : PaSampleFormat) :
  0 < maxInputChannels (selected_input host) ->
  0 < maxOutputChannels (selected_output host) ->
  request_ok host (request_for host rate fmt).
Proof.
  intros Hin Hout. unfold request_ok, request_for.
  cbn [open_input open_output open_userData open_framesPerBuffer open_flags
       device channelCount sampleFormat suggestedLatency format].
  pose proof (pick_channels_bounds (maxInputChannels (selected_input host))) as [B1 B2].
  pose proof (pick_channels_bounds (maxOutputChannels (selected_output host))) as [B3 B4].
  destruct (pick_channels_range _ Hin), (pick_channels_range _ Hout);
    repeat split; lia.
Qed.

(** X7.  Every request to open the stream names the two selected devices,
    asks each side for 1 or 2 channels and never for more than the device
    offers, uses one sample format for both sides and for the callback,
    takes each side's latency from its own device's low-latency default,
    and asks for [FRAMES_PER_BUFFER] frames per buffer with no flags. *)
Theorem open_requests_well_formed (host : Host HANDLE) (r : MainResult HANDLE) :
  main host = Some r ->
  Forall (request_ok host) (open_requests (trace r)).
Proof.
  intros Hmain. destruct (selection_quiet host) as (Ho & _ & _ & _).
  destruct (main_shape host r Hmain) as [Hi | Hi Hneg | Hi Hcnt Hbad | Hs Hz | rate Hs Hin Hout];
    try (cbn [trace]; rewrite ?open_requests_app, ?Ho; cbn; constructor).
  unfold negotiated_run. cbn [trace]. rewrite !open_requests_app, Ho.
  pose proof (request_for_ok host rate paFloat32 Hin Hout) as R1.
  pose proof (request_for_ok host rate paInt16 Hin Hout) as R2.
  destruct (_ =? paSampleFormatNotSupported); destruct (_ =? paNoError);
    cbn; repeat (constructor; [assumption |]); constructor.
Qed.

(** X8.  The callback data of a started stream carries the engine that
    [main] configured before it asked for any stream: created, then set to
    the integer part of the stream's sample rate, to the callback's own
    channel count, and to a pitch of [-4] semitones. *)
Theorem callback_engine_is_configured (host : Host HANDLE) (r : MainResult HANDLE)
    (cb : CallbackData HANDLE) :
  main host = Some r -> stream_data r = Some cb ->
  exists rate post,
    cast_uint (std_min (defaultSampleRate (selected_input host))
                       (defaultSampleRate (selected_output host))) = Some rate /\
    hST cb = configured_engine rate (channels cb) /\
    engine_channels (trace r) = [channels cb] /\
    trace r = selection_events host ++ engine_events rate (channels cb) ++ post /\
    open_requests (selection_events host ++ engine_events rate (channels cb)) = [] /\
    open_requests post <> [].
Proof.
  intros Hmain Hcb. destruct (selection_quiet host) as (Ho & Hch & _ & _).
  destruct (main_shape host r Hmain) as [Hi | Hi Hneg | Hi Hcnt Hbad | Hs Hz | rate Hs Hin Hout Hrate];
    try discriminate.
  exists rate. unfold negotiated_run in *. cbn [trace stream_data] in *.
  rewrite !engine_channels_app, Hch, open_requests_app, Ho.
  destruct (_ =? paSampleFormatNotSupported); destruct (_ =? paNoError);
    try discriminate; injection Hcb as <-; cbn [channels hST open_userData request_for];
    eexists; (split; [exact Hrate |]); repeat split; discriminate.
Qed.
End Requests.

Lemma open_requests_well_formed_witness :
  exists r, main fallback_host = Some r /\
            length (open_requests (trace r)) = 2%nat /\
            Forall (request_ok fallback_host) (open_requests (trace r)).
Proof.
  eexists. split; [vm_compute; reflexivity |]. split; [reflexivity |].
  apply (open_requests_well_formed fallback_host). vm_compute. reflexivity.
Defined.

Lemma callback_engine_is_configured_witness :
  exists r cb,
    main fallback_host = Some r /\ stream_data r = Some cb /\
    hST cb = configured_engine 44100 2.
Proof.
  destruct (callback_engine_is_configured fallback_host
              (negotiated_run fallback_host 44100)
              {| hST := configured_engine 44100 2; format := paInt16; channels := 2 |})
    as (rate & post & Hrate & Hh & _).
  - vm_compute. reflexivity.
  - reflexivity.
  - eexists. eexists. split; [vm_compute; reflexivity |]. split; reflexivity.
Defined.

Lemma store_range_ext {A : Type} (f g : nat -> A) (count : nat) :
  forall (lo : nat) (v : list A),
    (forall i : nat, (lo <= i < lo + count)%nat -> f i = g i) ->
    store_range f lo count v = store_range g lo count v.
Proof.
  induction count as [| k IH]; intros lo v Hfg; cbn [store_range]; [reflexivity |].
  destruct (lo <? length v)%nat; [| reflexivity].
  rewrite (Hfg lo) by lia. apply IH. intros i Hi. apply Hfg. lia.
Qed.

Lemma convert_input_some (fmt : PaSampleFormat) (p : RawInput) (n : Z) :
  n < 2 ^ 32 ->
  convert_input fmt (Some p) n = Some (normalized_input fmt p (Z.to_nat n)).
Proof.
  intros Hn. unfold convert_input, normalized_input.
  rewrite (vector_alloc_small n Hn).
  assert (Hrep : length (replicate (Z.to_nat n) F32.zero) = Z.to_nat n)
    by apply length_replicate.
  destruct (fmt =? paFloat32); [now apply store_range_all |].
  destruct (fmt =? paInt16); [| reflexivity].
  destruct (Z.ltb_spec n (2 ^ 32)) as [_ | Hge]; [| lia].
  now apply store_range_all.
Qed.

Lemma convert_output_defined (fmt : PaSampleFormat) (out : list spec_float) (n : Z) :
  Z.of_nat (length out) = n -> n < 2 ^ 32 ->
  (fmt = paInt16 -> Forall (fun x => sample_ok x = true) out) ->
  exists output, convert_output fmt out n = Some output.
Proof.
  intros Hlen Hn Hok. unfold convert_output.
  destruct (fmt =? paFloat32); [now eexists |].
  destruct (Z.eqb_spec fmt paInt16) as [E | _]; [| now eexists].
  destruct (Z.ltb_spec n (2 ^ 32)) as [_ | Hge]; [| lia].
  rewrite take_ge by lia.
  destruct (map_defined_spec toFixed16 out) as (l & Hl & _).
  { intros x Hx. specialize (Hok E). rewrite Forall_forall in Hok.
    destruct (toFixed16_defined x) as (y & Hy & _); [| now exists y].
    apply Hok. now apply list_elem_of_In. }
  rewrite Hl. now eexists.
Qed.

Section CallbackEdges.
Context {HANDLE : Type} `{SoundTouch HANDLE}.

(** X9.  The callback reads the first [framesPerBuffer * channels] input
    samples and nothing behind them, and only through the view of its
    format: two input buffers that agree there give the same engine state,
    the same output and the same status. *)
Theorem callback_reads_only_its_buffer (data : CallbackData HANDLE) (fpb : Z)
    (p q : RawInput) :
  let n := Z.to_nat (wrap_ulong (fpb * channels data)) in
  (format data = paFloat32 ->
   forall i : nat, (i < n)%nat -> as_float p i = as_float q i) ->
  (format data = paInt16 ->
   forall i : nat, (i < n)%nat -> as_int16 p i = as_int16 q i) ->
  audioCallback data (Some p) fpb = audioCallback data (Some q) fpb.
Proof.
  intros n Hfl Hi.
  assert (Hin : convert_input (format data) (Some p) (wrap_ulong (fpb * channels data))
                = convert_input (format data) (Some q) (wrap_ulong (fpb * channels data))).
  { unfold convert_input.
    destruct (vector_alloc _) as [inFloat |]; [| reflexivity].
    destruct (Z.eqb_spec (format data) paFloat32) as [E | _].
    - apply store_range_ext. intros i Hlt. apply (Hfl E). fold n in Hlt. lia.
    - destruct (Z.eqb_spec (format data) paInt16) as [E | _]; [| reflexivity].
      destruct (_ <? 2 ^ 32); [| reflexivity].
      apply store_range_ext. intros i Hlt. rewrite (Hi E i); [reflexivity |].
      fold n in Hlt. lia. }
  unfold audioCallback, feed_and_drain. now rewrite Hin.
Qed.

(** X10.  With a format that is neither [paFloat32] nor [paInt16] the
    callback ignores its input and stores nothing in the driver's output
    buffer; the engine is still fed, with [framesPerBuffer * channels]
    samples of silence, and drained, and the callback returns when the
    engine fills the buffer it was given. *)
Theorem unknown_format_is_ignored (data : CallbackData HANDLE) (fpb : Z) :
  format data <> paFloat32 -> format data <> paInt16 ->
  0 <= fpb -> 0 <= channels data -> fpb * channels data < 2 ^ 31 ->
  forall input : option RawInput,
    let zeros := replicate (Z.to_nat (fpb * channels data)) F32.zero in
    convert_input (format data) input (wrap_ulong (fpb * channels data))
      = Some zeros /\
    audioCallback data input fpb = audioCallback data None fpb /\
    (forall r, audioCallback data input fpb = Some r -> cb_output r = OutUntouched) /\
    (0 < fpb * channels data ->
     let fed := soundtouch_receiveSamples
                  (soundtouch_putSamples (hST data) zeros fpb) zeros fpb in
     feed_and_drain data input fpb = Some fed /\
     (forall r, audioCallback data input fpb = Some r ->
                cb_engine r = fst (fst fed)) /\
     (Z.of_nat (length (snd (fst fed))) = fpb * channels data ->
      0 <= snd fed <= fpb ->
      exists r, audioCallback data input fpb = Some r /\
                cb_engine r = fst (fst fed) /\
                cb_output r = OutUntouched)).
Proof.
  intros H32 H16 Hf Hc Hn input zeros.
  apply Z.eqb_neq in H32 as B32. apply Z.eqb_neq in H16 as B16.
  destruct (wrap_small (fpb * channels data)) as (Hw & _ & _); [nia |].
  assert (Hn32 : fpb * channels data < 2 ^ 32) by pow2_lia.
  assert (Hin : convert_input (format data) input (wrap_ulong (fpb * channels data))
                = Some zeros).
  { unfold convert_input. rewrite Hw, (vector_alloc_small _ Hn32). now rewrite B32, B16. }
  assert (Hunt : forall r, audioCallback data input fpb = Some r ->
                           cb_output r = OutUntouched).
  { intros r Hr. destruct (audioCallback_output data input fpb r Hr) as [Hout _].
    unfold convert_output in Hout. rewrite B32, B16 in Hout. now injection Hout as <-. }
  split; [exact Hin |]. split; [| split; [exact Hunt |]].
  - unfold audioCallback, feed_and_drain. rewrite Hin.
    rewrite Hw, convert_input_null by exact Hn32. reflexivity.
  - intros Hpos fed.
    assert (Hfpb : 0 <= fpb < 2 ^ 32).
    { assert (1 <= channels data) by nia.
      assert (fpb <= fpb * channels data) by nia. pow2_lia. }
    assert (Hfed : feed_and_drain data input fpb = Some fed).
    { unfold feed_and_drain. rewrite Hin. rewrite Hw, (vector_alloc_small _ Hn32).
      rewrite (wrap_uint_small fpb Hfpb). fold zeros. do 2 f_equal.
      unfold feed, zeros.
      destruct (Z.to_nat (fpb * channels data)) as [| k] eqn:Hk; [lia | reflexivity]. }
    split; [exact Hfed |].
    destruct fed as [[h2 buf] received]. cbn [fst snd]. split.
    + intros r Hr. exact (audioCallback_engine data input fpb h2 buf received r Hfed Hr).
    + intros Hlen Hrec.
      destruct (audioCallback_run data input fpb h2 buf received
                  Hf Hc Hn Hfed Hlen Hrec) as (out & output & _ & _ & Hcb).
      { intros E. contradiction. }
      eexists. split; [exact Hcb |]. split; [reflexivity |].
      exact (Hunt _ Hcb).
Qed.


(** X12.  The buffer is handed to the engine whole and as converted: for a
    non-empty buffer and an input that is not null, [soundtouch_putSamples]
    receives the [framesPerBuffer * channels] converted samples and the
    frame count [framesPerBuffer] (as an [unsigned int], which leaves it
    unchanged here), before [soundtouch_receiveSamples] is asked for up to
    [framesPerBuffer] frames into a zeroed buffer.  The input samples are
    not clamped. *)
Theorem engine_is_fed_the_whole_buffer (data : CallbackData HANDLE) (fpb : Z)
    (p : RawInput) :
  0 < fpb * channels data < 2 ^ 31 ->
  let n := Z.to_nat (fpb * channels data) in
  length (normalized_input (format data) p n) = n /\
  feed_and_drain data (Some p) fpb =
    Some (soundtouch_receiveSamples
            (soundtouch_putSamples (hST data) (normalized_input (format data) p n)
               (wrap_uint fpb))
            (replicate n F32.zero) (wrap_uint fpb)) /\
  (0 <= fpb -> wrap_uint fpb = fpb) /\
  (format data = paFloat32 ->
   forall i : nat, (i < n)%nat ->
     normalized_input (format data) p n !! i = Some (as_float p i)) /\
  (format data = paInt16 ->
   forall i : nat, (i < n)%nat ->
     normalized_input (format data) p n !! i = Some (toNormalized (as_int16 p i))).
Proof.
  intros Hn n.
  destruct (wrap_small (fpb * channels data)) as (Hw & _ & _); [lia |].
  assert (Hn32 : fpb * channels data < 2 ^ 32) by pow2_lia.
  assert (Hlen : length (normalized_input (format data) p n) = n).
  { unfold normalized_input.
    destruct (_ =? paFloat32); [now rewrite length_map, length_seq |].
    destruct (_ =? paInt16); [now rewrite length_map, length_seq |].
    apply length_replicate. }
  assert (Hmap : forall (f : nat -> spec_float) (i : nat),
             (i < n)%nat -> map f (seq 0 n) !! i = Some (f i)).
  { intros f i Hi. change (map f (seq 0 n)) with (f <$> seq 0 n).
    rewrite list_lookup_fmap, lookup_seq_lt by lia. reflexivity. }
  split; [exact Hlen |]. split; [| split; [| split]].
  - unfold feed_and_drain.
    rewrite Hw, convert_input_some, vector_alloc_small by exact Hn32.
    fold n. do 2 f_equal. unfold feed.
    destruct (normalized_input (format data) p n) as [| x l] eqn:E; [| reflexivity].
    cbn in Hlen. lia.
  - intros Hf. apply wrap_uint_small.
    assert (1 <= channels data) by nia.
    assert (fpb <= fpb * channels data) by nia. pow2_lia.
  - intros E i Hi. unfold normalized_input. rewrite E. cbn. now apply Hmap.
  - intros E i Hi. unfold normalized_input.
    rewrite (paInt16_not_paFloat32 _ E), E. cbn.
    exact (Hmap (fun i => toNormalized (as_int16 p i)) i Hi).
Qed.
End CallbackEdges.

Lemma callback_reads_only_its_buffer_witness :
  audioCallback stereo_int16 (Some sample_input) 2
  = audioCallback stereo_int16 (Some sample_input_longer) 2.
Proof.
  apply (callback_reads_only_its_buffer stereo_int16 2 sample_input sample_input_longer).
  - discriminate.
  - intros _ i Hi. change (i < 4)%nat in Hi.
    unfold sample_input_longer. cbn [as_int16].
    destruct (Nat.ltb_spec i 4); [reflexivity | lia].
Defined.

Lemma unknown_format_is_ignored_witness :
  audioCallback stereo_int32 (Some sample_input) 2 = audioCallback stereo_int32 None 2 /\
  feed_and_drain stereo_int32 (Some sample_input) 2 =
    Some (soundtouch_receiveSamples
            (soundtouch_putSamples loopback0 (replicate 4 F32.zero) 2)
            (replicate 4 F32.zero) 2) /\
  exists r, audioCallback stereo_int32 (Some sample_input) 2 = Some r /\
            cb_engine r =
              fst (fst (soundtouch_receiveSamples
                          (soundtouch_putSamples loopback0 (replicate 4 F32.zero) 2)
                          (replicate 4 F32.zero) 2)) /\
            cb_output r = OutUntouched.
Proof.
  destruct (unknown_format_is_ignored stereo_int32 2) with (input := Some sample_input)
    as (_ & Hsame & _ & Heng).
  - discriminate.
  - discriminate.
  - lia.
  - cbn. lia.
  - reflexivity.
  - split; [exact Hsame |].
    destruct Heng as (Hfed & _ & Hrun); [reflexivity |].
    split; [exact Hfed |]. apply Hrun.
    + reflexivity.
    + cbn. lia.
Defined.


Lemma engine_is_fed_the_whole_buffer_witness :
  feed_and_drain stereo_float32 (Some sample_input) 2 =
    Some (soundtouch_receiveSamples
            (soundtouch_putSamples loopback0 [f_0_5; f_1_5; f_minus_1_5; f_0_5] 2)
            (replicate 4 F32.zero) 2).
Proof.
  apply (engine_is_fed_the_whole_buffer stereo_float32 2 sample_input).
  cbn. lia.
Defined.

Section CallbackBounds.
Context {HANDLE : Type} `{SoundTouch HANDLE}.

(** X13.  If the engine reports [framesPerBuffer] frames or more, the
    padding loop does not run: the buffer goes to the output conversion as
    the engine left it. *)
Theorem full_buffer_is_not_padded (data : CallbackData HANDLE)
    (input : option RawInput) (fpb : Z) (h2 : HANDLE) (buf : list spec_float)
    (received : Z) :
  0 <= fpb -> 0 <= channels data -> fpb * channels data < 2 ^ 31 ->
  feed_and_drain data input fpb = Some (h2, buf, received) ->
  Z.of_nat (length buf) = fpb * channels data ->
  fpb <= received -> received * channels data < 2 ^ 31 ->
  (format data = paInt16 -> Forall (fun x => sample_ok x = true) buf) ->
  exists r,
    audioCallback data input fpb = Some r /\
    cb_outFloat r = buf /\ cb_engine r = h2 /\
    convert_output (format data) buf (fpb * channels data) = Some (cb_output r).
Proof.
  intros Hf Hc Hn Hfd Hlen Hr Hrc Hok.
  destruct (wrap_small (fpb * channels data)) as (Hw & Hwi & _); [nia |].
  destruct (wrap_small (received * channels data)) as (_ & _ & Hin); [nia |].
  assert (Hpad : pad_silence buf received (channels data) (fpb * channels data) = Some buf).
  { unfold pad_silence. rewrite Hwi, Hin. cbn [negb].
    destruct (Z.leb_spec (fpb * channels data) (received * channels data)); [reflexivity | nia]. }
  destruct (convert_output_defined (format data) buf (fpb * channels data))
    as [output Hout]; [exact Hlen | pow2_lia | exact Hok |].
  exists {| cb_return := paContinue; cb_engine := h2;
            cb_outFloat := buf; cb_output := output |}.
  cbn [cb_outFloat cb_engine cb_output]. repeat split; [| exact Hout].
  unfold audioCallback. rewrite Hfd, Hw.
  destruct (Z.eqb_spec (Z.of_nat (length buf)) (fpb * channels data)); [| contradiction].
  cbn [negb]. now rewrite Hpad, Hout.
Qed.

(** X14.  In Int16 mode the callback stores exactly
    [framesPerBuffer * channels] samples, each between [-32767] and
    [32767]: whatever numbers the engine produces, the value [-32768] is
    never written. *)
Theorem int16_output_in_range (data : CallbackData HANDLE)
    (input : option RawInput) (fpb : Z) (h2 : HANDLE) (buf : list spec_float)
    (received : Z) :
  format data = paInt16 ->
  0 <= fpb -> 0 <= channels data -> fpb * channels data < 2 ^ 31 ->
  feed_and_drain data input fpb = Some (h2, buf, received) ->
  Z.of_nat (length buf) = fpb * channels data ->
  0 <= received <= fpb ->
  Forall (fun x => sample_ok x = true) buf ->
  exists r l,
    audioCallback data input fpb = Some r /\
    cb_output r = OutInt16 l /\
    Z.of_nat (length l) = fpb * channels data /\
    Forall (fun v => -32767 <= v <= 32767) l.
Proof.
  intros E Hf Hc Hn Hfd Hlen Hr Hok.
  destruct (audioCallback_padded data input fpb h2 buf received Hf Hc Hn Hfd Hlen Hr)
    as (r & Hcb & Hpad & Hlo & Hout); [intros _; exact Hok |].
  unfold convert_output in Hout.
  rewrite (paInt16_not_paFloat32 _ E), E, Z.eqb_refl in Hout.
  destruct (_ <? 2 ^ 32); [| discriminate].
  rewrite take_ge in Hout by lia.
  destruct (map_defined toFixed16 (cb_outFloat r)) as [l |] eqn:Hl; [| discriminate].
  cbn in Hout. injection Hout as Hout.
  destruct (map_defined_lookup _ _ _ Hl) as [Hll Hlk].
  exists r, l. split; [exact Hcb |]. split; [now rewrite Hout |].
  split; [lia |].
  apply Forall_lookup. intros j v Hv.
  destruct (lookup_lt_is_Some_2 (cb_outFloat r) j) as [x Hx].
  { rewrite <- Hll. now apply lookup_lt_Some with v. }
  rewrite (Hlk j x Hx) in Hv.
  assert (Hxok : sample_ok x = true).
  { rewrite (Hpad j) in Hx. rewrite Forall_lookup in Hok.
    destruct (_ <? received * channels data); [now apply (Hok j) |].
    destruct (_ <? fpb * channels data); [now injection Hx as <- | discriminate]. }
  destruct (toFixed16_defined x Hxok) as (y & Hy & Hb).
  rewrite Hy in Hv. now injection Hv as <-.
Qed.
End CallbackBounds.

Lemma int16_output_in_range_witness :
  exists r l,
    audioCallback stereo_int16 (Some sample_input) 2 = Some r /\
    cb_output r = OutInt16 l /\
    Z.of_nat (length l) = 2 * 2 /\
    Forall (fun v => -32767 <= v <= 32767) l.
Proof.
  apply (int16_output_in_range stereo_int16 (Some sample_input) 2
           {| lb_rate := 44100; lb_channels := 2; lb_pitch := minus_four;
              lb_held := [toNormalized 0; toNormalized 1000] |}
           [toNormalized (-2000); toNormalized (-1000);
            toNormalized 0; toNormalized 1000] 1).
  - reflexivity.
  - lia.
  - cbn. lia.
  - reflexivity.
  - reflexivity.
  - reflexivity.
  - lia.
  - repeat constructor.
Defined.

Lemma full_buffer_is_not_padded_witness :
  exists r,
    audioCallback echo_float32 (Some sample_input) 2 = Some r /\
    cb_outFloat r = [f_0_5; f_1_5; f_minus_1_5; f_0_5] /\
    cb_engine r = {| echo_held := [] |} /\
    convert_output (format echo_float32) [f_0_5; f_1_5; f_minus_1_5; f_0_5]
      (2 * channels echo_float32) = Some (cb_output r).
Proof.
  apply (full_buffer_is_not_padded echo_float32 (Some sample_input) 2
           {| echo_held := [] |} [f_0_5; f_1_5; f_minus_1_5; f_0_5] 2).
  - lia.
  - cbn. lia.
  - cbn. lia.
  - reflexivity.
  - reflexivity.
  - lia.
  - cbn. lia.
  - discriminate.
Defined.

(** ** The converters, further *)

Lemma normalized_exact_all_int16 : forallb normalized_exact int16_values = true.
Proof. vm_compute. reflexivity. Qed.

Lemma roundtrip_within_one_int16 (s : Z) :
  -32768 <= s <= 32767 -> roundtrip_within_one s = true.
Proof.
  intros Hs. pose proof roundtrip_all_int16 as Hall.
  rewrite forallb_forall in Hall. apply Hall. apply z_range_In. lia.
Qed.

(** X15.  The Fixed16-to-normalized conversion loses nothing: for every
    16-bit sample [s], [s / 32768.0f] is a binary32 number in
    [[-1.0, 1.0)], and multiplying it by [32768.0f] gives [s] back
    exactly. *)
Theorem toNormalized_exact (s : Z) :
  -32768 <= s <= 32767 ->
  sample_ok (toNormalized s) = true /\
  F32.leb F32.minus_one (toNormalized s) = true /\
  F32.ltb (toNormalized s) F32.one = true /\
  SFeqb (F32.mul (toNormalized s) F32.c32768) (F32.of_int s) = true /\
  float_trunc (F32.mul (toNormalized s) F32.c32768) = Some s.
Proof.
  intros Hs. pose proof normalized_exact_all_int16 as Hall.
  rewrite forallb_forall in Hall.
  assert (Hin : In s int16_values) by (apply z_range_In; lia).
  specialize (Hall s Hin).
  unfold normalized_exact in Hall. cbv zeta in Hall.
  apply andb_prop in Hall as [Hall Ht].
  apply andb_prop in Hall as [Hall He].
  apply andb_prop in Hall as [Hall Hlt].
  apply andb_prop in Hall as [Hok Hle].
  repeat split; try assumption.
  destruct (float_trunc _) as [t |]; [| discriminate].
  apply Z.eqb_eq in Ht. now subst.
Qed.

Lemma toNormalized_exact_witness :
  sample_ok (toNormalized (-32768)) = true /\
  F32.leb F32.minus_one (toNormalized (-32768)) = true /\
  F32.ltb (toNormalized (-32768)) F32.one = true /\
  SFeqb (F32.mul (toNormalized (-32768)) F32.c32768) (F32.of_int (-32768)) = true /\
  float_trunc (F32.mul (toNormalized (-32768)) F32.c32768) = Some (-32768).
Proof.
  apply (toNormalized_exact (-32768)). lia.
Defined.

Lemma SFcompare_opp (a b : spec_float) :
  SFcompare (SFopp a) (SFopp b) = SFcompare b a.
Proof.
  rewrite (SFcompare_swap a b).
  destruct a as [sa | sa | | sa ma ea], b as [sb | sb | | sb mb eb];
    try destruct sa; try destruct sb; try reflexivity;
    cbn [SFopp SFcompare negb option_map];
    destruct (ea ?= eb); cbn [CompOpp]; try reflexivity;
    now rewrite CompOpp_involutive.
Qed.

Lemma clamp_unit_opp (x : spec_float) :
  clamp_unit (SFopp x) = SFopp (clamp_unit x).
Proof.
  destruct (is_nan x) eqn:Hn; [destruct x; try discriminate; reflexivity |].
  assert (Hn' : is_nan (SFopp x) = false) by (now destruct x).
  assert (Hlt : forall a b, SFltb (SFopp a) (SFopp b) = SFltb b a).
  { intros a b. unfold SFltb. now rewrite SFcompare_opp. }
  assert (Hle : forall a b, SFleb (SFopp a) (SFopp b) = SFleb b a).
  { intros a b. unfold SFleb. now rewrite SFcompare_opp. }
  destruct (F32.ltb F32.one x) eqn:Ha.
  { rewrite (clamp_unit_above x Ha). apply clamp_unit_below.
    change F32.minus_one with (SFopp F32.one). unfold F32.ltb. now rewrite Hlt. }
  destruct (F32.ltb x F32.minus_one) eqn:Hb.
  { rewrite (clamp_unit_below x Hb). apply clamp_unit_above.
    change F32.one with (SFopp F32.minus_one). unfold F32.ltb. now rewrite Hlt. }
  rewrite (clamp_unit_inside x).
  - apply clamp_unit_inside.
    + change F32.minus_one with (SFopp F32.one). unfold F32.leb. rewrite Hle.
      now apply leb_of_not_ltb.
    + change F32.one with (SFopp F32.minus_one). unfold F32.leb. rewrite Hle.
      now apply leb_of_not_ltb.
  - now apply leb_of_not_ltb.
  - now apply leb_of_not_ltb.
Qed.

Lemma binary_round_aux_opp (prec emax : Z) (s : bool) (m e : Z) (l : location) :
  binary_round_aux prec emax (negb s) m e l
  = SFopp (binary_round_aux prec emax s m e l).
Proof.
  unfold binary_round_aux.
  destruct (shr_fexp prec emax m e l) as [mrs' e'].
  destruct (shr_fexp prec emax _ e' loc_Exact) as [mrs'' e''].
  destruct (shr_m mrs''); [reflexivity | | reflexivity].
  now destruct (e'' <=? emax - prec).
Qed.

Lemma mul_opp (x c : spec_float) :
  is_nan c = false -> F32.mul (SFopp x) c = SFopp (F32.mul x c).
Proof.
  intros Hc. unfold F32.mul.
  destruct x as [sx | sx | | sx mx ex], c as [sc | sc | | sc mc ec];
    try discriminate; cbn [SFopp SFmul]; try reflexivity;
    try (now destruct sx, sc).
  rewrite <- binary_round_aux_opp. now destruct sx, sc.
Qed.

Lemma float_trunc_opp (x : spec_float) :
  float_trunc (SFopp x) = option_map Z.opp (float_trunc x).
Proof.
  destruct x as [s | s | | s m e]; cbn [SFopp float_trunc option_map];
    try reflexivity.
  f_equal. destruct s; cbn [negb]; lia.
Qed.

(** X16.  The Normalized-to-Fixed16 conversion is odd: negating a binary32
    sample negates the integer written for it, and leaves the conversion
    undefined where it was (a NaN). *)
Theorem toFixed16_odd (x : spec_float) :
  F32.valid x = true ->
  toFixed16 (SFopp x) = option_map Z.opp (toFixed16 x).
Proof.
  intros Hv. unfold toFixed16.
  rewrite clamp_unit_opp, mul_opp by reflexivity.
  destruct (is_nan x) eqn:Hn; [destruct x; try discriminate; reflexivity |].
  destruct (toFixed16_defined x) as (r & Hr & Hb).
  { unfold sample_ok. now rewrite Hv, Hn. }
  unfold toFixed16 in Hr. rewrite Hr. cbn [option_map].
  unfold cast_int16, cast_range in *. rewrite float_trunc_opp.
  destruct (float_trunc _) as [t |]; [| discriminate].
  cbn [option_map].
  destruct ((-32768 <=? t) && (t <=? 32767)); [| discriminate].
  injection Hr as ->.
  destruct (Z.leb_spec (-32768) (- r)); [| lia].
  destruct (Z.leb_spec (- r) 32767); [reflexivity | lia].
Qed.

Lemma toFixed16_odd_witness :
  toFixed16 (SFopp f_0_5) = option_map Z.opp (toFixed16 f_0_5).
Proof.
  apply (toFixed16_odd f_0_5). reflexivity.
Defined.

(** X17.  On binary32 values the Normalized-to-Fixed16 conversion is
    undefined for a NaN and for nothing else: both comparisons of the
    clamp are false for a NaN, which then reaches the cast. *)
Theorem toFixed16_undefined_iff_nan (x : spec_float) :
  F32.valid x = true ->
  (toFixed16 x = None <-> is_nan x = true).
Proof.
  intros Hv. split.
  - intros Hnone. destruct (is_nan x) eqn:Hn; [reflexivity |].
    destruct (toFixed16_defined x) as (r & Hr & _).
    { unfold sample_ok. now rewrite Hv, Hn. }
    congruence.
  - intros Hn. destruct x; try discriminate. reflexivity.
Qed.

Lemma toFixed16_undefined_iff_nan_witness :
  toFixed16 S754_nan = None <-> is_nan S754_nan = true.
Proof.
  apply (toFixed16_undefined_iff_nan S754_nan). reflexivity.
Defined.

(** X18.  Input conversion followed by output conversion, on a whole
    buffer: in Float32 mode the samples come back unchanged, in Int16 mode
    every sample comes back within one quantization step. *)
Theorem buffer_roundtrip (p : RawInput) (n : Z) :
  0 <= n < 2 ^ 32 ->
  (forall i, (i < Z.to_nat n)%nat -> -32768 <= as_int16 p i <= 32767) ->
  (exists buf,
     convert_input paFloat32 (Some p) n = Some buf /\
     convert_output paFloat32 buf n
     = Some (OutFloat32 (map (as_float p) (seq 0 (Z.to_nat n))))) /\
  (exists buf l,
     convert_input paInt16 (Some p) n = Some buf /\
     convert_output paInt16 buf n = Some (OutInt16 l) /\
     length l = Z.to_nat n /\
     forall i, (i < Z.to_nat n)%nat ->
       exists r, l !! i = Some r /\ Z.abs (r - as_int16 p i) <= 1).
Proof.
  intros Hn Hr. split.
  - eexists. split; [apply convert_input_some; lia |]. reflexivity.
  - rewrite (convert_input_some paInt16 p n) by lia.
    unfold normalized_input. cbn [paInt16 paFloat32 Z.eqb Pos.eqb].
    set (buf := map _ _).
    assert (Hlen : length buf = Z.to_nat n).
    { unfold buf. now rewrite length_map, length_seq. }
    exists buf.
    unfold convert_output. cbn [paInt16 paFloat32 Z.eqb Pos.eqb].
    destruct (Z.ltb_spec n (2 ^ 32)); [| lia].
    rewrite take_ge by lia.
    destruct (map_defined_spec toFixed16 buf) as (l & Hl & Hll & Hlk).
    { intros x Hx. unfold buf in Hx. apply in_map_iff in Hx as (i & <- & Hi).
      apply in_seq in Hi.
      pose proof (roundtrip_within_one_int16 (as_int16 p i) (Hr i ltac:(lia))) as Hrt.
      unfold roundtrip_within_one in Hrt.
      destruct (toFixed16 _) as [y |]; [now exists y | discriminate]. }
    exists l. rewrite Hl. cbn [option_map].
    split; [reflexivity |]. split; [reflexivity |]. split; [lia |].
    intros i Hi.
    assert (Hbi : buf !! i = Some (toNormalized (as_int16 p i))).
    { unfold buf. rewrite list_lookup_fmap, lookup_seq_lt by lia. reflexivity. }
    rewrite (Hlk i _ Hbi).
    pose proof (roundtrip_within_one_int16 (as_int16 p i) (Hr i Hi)) as Hrt.
    unfold roundtrip_within_one in Hrt.
    destruct (toFixed16 _) as [y |]; [| discriminate].
    exists y. split; [reflexivity |]. now apply Z.leb_le.
Qed.

Lemma buffer_roundtrip_witness :
  exists buf l,
    convert_input paInt16 (Some sample_input) 4 = Some buf /\
    convert_output paInt16 buf 4 = Some (OutInt16 l) /\
    length l = Z.to_nat 4 /\
    forall i, (i < Z.to_nat 4)%nat ->
      exists r, l !! i = Some r /\ Z.abs (r - as_int16 sample_input i) <= 1.
Proof.
  apply (buffer_roundtrip sample_input 4).
  - lia.
  - intros i Hi. change (i < 4)%nat in Hi. cbn [as_int16 sample_input]. lia.
Defined.

Section Definedness.
Context {HANDLE : Type} `{SoundTouch HANDLE}.

Lemma cast_uint_undefined (x : spec_float) :
  float_trunc x = None \/
  (exists t, float_trunc x = Some t /\ (t < 0 \/ 2 ^ 32 <= t)) ->
  cast_uint x = None.
Proof.
  unfold cast_uint, cast_range. intros [-> | (t & -> & Ht)]; [reflexivity |].
  destruct (Z.leb_spec 0 t); [| reflexivity].
  destruct (Z.leb_spec t 4294967295); [exfalso; pow2_lia | reflexivity].
Qed.

(** X19.  The conversion [(unsigned int)sampleRate] of line 165 is not
    guarded: when both ids typed in are valid and both devices have
    channels, and the smaller of the two default sample rates is a NaN, an
    infinity, or a number whose integer part is below [0] or not below
    [2^32], [main] reaches the conversion where C++ leaves it undefined,
    and no exit status follows. *)
Theorem unconvertible_rate_is_undefined (host : Host HANDLE) :
  devices_selected host ->
  0 < maxInputChannels (selected_input host) ->
  0 < maxOutputChannels (selected_output host) ->
  let rate := std_min (defaultSampleRate (selected_input host))
                      (defaultSampleRate (selected_output host)) in
  float_trunc rate = None \/
  (exists t, float_trunc rate = Some t /\ (t < 0 \/ 2 ^ 32 <= t)) ->
  main host = None.
Proof.
  intros Hsel Hin Hout rate Hrate.
  apply cast_uint_undefined in Hrate.
  rewrite (main_selected host Hsel). unfold negotiate.
  fold (selected_input host). fold (selected_output host). fold rate.
  assert (Hor : (pick_channels (maxInputChannels (selected_input host)) =? 0) ||
                (pick_channels (maxOutputChannels (selected_output host)) =? 0)
                = false).
  { apply orb_false_iff. split; apply Z.eqb_neq; rewrite pick_channels_zero; lia. }
  now rewrite Hor, Hrate.
Qed.
End Definedness.

Lemma unconvertible_rate_is_undefined_witness : main unconvertible_rate_host = None.
Proof.
  apply (unconvertible_rate_is_undefined unconvertible_rate_host).
  - split; [reflexivity | split; cbn; lia].
  - cbn. lia.
  - cbn. lia.
  - right. exists 4294967296. split; [vm_compute; reflexivity |]. right. reflexivity.
Defined.
